(** * Ranking and query translation of the repository search service

    A shallow embedding of [ScoringService]
    (services/scoring.service.ts) and of [GitHubService], the service
    that builds the upstream query and runs the search, with the
    properties of the popularity score, of the sort and of the query
    string.

    Numbers.  A JavaScript [number] that goes through [Math.log10] or
    [Math.exp] is held as a real ([R]): the arithmetic is exact, the
    rounding error of IEEE doubles is not part of the model.  Counts and
    time values (milliseconds since the epoch) are integers ([Z]).  A
    popularity score is an integer divided by 100 and is held as a
    rational ([Q]), so that scores are compared by computation.  A
    [NaN] is [None].

    Strings are sequences of code units below 256.  Arrays live in a
    store, so that a sort in place and a copy differ.  The clock and the
    date parser of the host are parameters. *)

From Stdlib Require Import Reals Lra Lia ZArith QArith String Ascii List.
From Stdlib Require Import Sorting.Sorted.
From stdpp Require Import base option list strings gmap sorting.
Import ListNotations.
Open Scope string_scope.
Open Scope Z_scope.

(* ===================================================================== *)
(** * Host built-ins: numbers and dates *)
(* ===================================================================== *)

(** ** [Math] *)

Definition Math_log10 (x : R) : R := (ln x / ln 10)%R.
Definition Math_exp (x : R) : R := exp x.
Definition Math_min (x y : R) : R := Rmin x y.
Definition Math_max (x y : R) : R := Rmax x y.

(** [Math.round]: the nearest integer, a tie going up. *)
Definition Math_round (x : R) : Z := Zfloor (x + / 2)%R.

(** ** [Date]

    [Date_parse s] is the time value of [new Date(s)], in milliseconds
    since the epoch, and [None] when that time value is [NaN].  Outside
    the ISO format the parser is the implementation's own, so it is an
    interface of the host.  A time value is at most 100,000,000 days away
    from the epoch. *)

Definition maxTimeValue : Z := 8640000000000000%Z.

Class JSDate := {
  Date_parse : string -> option Z;
  Date_parse_range : forall s t,
    Date_parse s = Some t -> (- maxTimeValue <= t <= maxTimeValue)%Z }.

(** The calendar of the language: days and years from a time value. *)

Definition msPerDay : Z := 86400000.

Definition Day (t : Z) : Z := t / msPerDay.

Definition DaysInYear (y : Z) : Z :=
  if negb (y mod 4 =? 0)%Z then 365
  else if negb (y mod 100 =? 0)%Z then 366
  else if negb (y mod 400 =? 0)%Z then 365
  else 366.

Definition DayFromYear (y : Z) : Z :=
  365 * (y - 1970) + (y - 1969) / 4 - (y - 1901) / 100 + (y - 1601) / 400.

(** The largest year that starts on or before the day of [t]: the mean
    year length gives a year that is off by one at most. *)
Definition YearFromTime (t : Z) : Z :=
  let y := 1970 + (Day t * 400) / 146097 in
  if (Day t <? DayFromYear y)%Z then y - 1
  else if (DayFromYear (y + 1) <=? Day t)%Z then y + 1
  else y.

Definition InLeapYear (t : Z) : Z :=
  if (DaysInYear (YearFromTime t) =? 366)%Z then 1 else 0.

Definition DayWithinYear (t : Z) : Z := Day t - DayFromYear (YearFromTime t).

(** Months count from 0. *)
Definition MonthFromTime (t : Z) : Z :=
  let d := DayWithinYear t in
  let leap := InLeapYear t in
  if (d <? 31)%Z then 0
  else if (d <? 59 + leap)%Z then 1
  else if (d <? 90 + leap)%Z then 2
  else if (d <? 120 + leap)%Z then 3
  else if (d <? 151 + leap)%Z then 4
  else if (d <? 181 + leap)%Z then 5
  else if (d <? 212 + leap)%Z then 6
  else if (d <? 243 + leap)%Z then 7
  else if (d <? 273 + leap)%Z then 8
  else if (d <? 304 + leap)%Z then 9
  else if (d <? 334 + leap)%Z then 10
  else 11.

Definition DateFromTime (t : Z) : Z :=
  let d := DayWithinYear t in
  let leap := InLeapYear t in
  match MonthFromTime t with
  | 0 => d + 1
  | 1 => d - 30
  | 2 => d - 58 - leap
  | 3 => d - 89 - leap
  | 4 => d - 119 - leap
  | 5 => d - 150 - leap
  | 6 => d - 180 - leap
  | 7 => d - 211 - leap
  | 8 => d - 242 - leap
  | 9 => d - 272 - leap
  | 10 => d - 303 - leap
  | _ => d - 333 - leap
  end.

Definition HourFromTime (t : Z) : Z := (t / 3600000) mod 24.
Definition MinFromTime (t : Z) : Z := (t / 60000) mod 60.
Definition SecFromTime (t : Z) : Z := (t / 1000) mod 60.
Definition msFromTime (t : Z) : Z := t mod 1000.

Definition digit (d : Z) : ascii := ascii_of_N (48 + Z.to_N d).

(** The last [width] decimal digits of [n], with leading zeros. *)
Fixpoint digits (width : nat) (n : Z) : string :=
  match width with
  | O => EmptyString
  | S w => digits w (n / 10) +:+ String (digit (n mod 10)) EmptyString
  end.

(** Four digits for the years 0 to 9999, a sign and six digits
    otherwise. *)
Definition isoYear (y : Z) : string :=
  if (0 <=? y)%Z && (y <=? 9999)%Z then digits 4 y
  else if (y <? 0)%Z then "-" +:+ digits 6 (- y)
  else "+" +:+ digits 6 y.

(** [date.toISOString()] of a date with time value [t]. *)
Definition Date_toISOString (t : Z) : string :=
  isoYear (YearFromTime t) +:+ "-" +:+
  digits 2 (MonthFromTime t + 1) +:+ "-" +:+
  digits 2 (DateFromTime t) +:+ "T" +:+
  digits 2 (HourFromTime t) +:+ ":" +:+
  digits 2 (MinFromTime t) +:+ ":" +:+
  digits 2 (SecFromTime t) +:+ "." +:+
  digits 3 (msFromTime t) +:+ "Z".

(* ===================================================================== *)
(** * Host built-ins: strings *)
(* ===================================================================== *)

(** A string is a sequence of code units; the model holds the code units
    below 256, one per [ascii]. *)

Definition code (c : ascii) : N := N_of_ascii c.

(** ** The character class of a regular expression *)

Inductive ClassAtom :=
| ClassRange (lo hi : ascii)      (* a-z *)
| ClassChar (c : ascii)           (* _ or an escaped \- *)
| ClassWhiteSpace.                (* \s *)

(** [\s]: tab, line feed, vertical tab, form feed, carriage return,
    space and no-break space are its code units below 256. *)
Definition isWhiteSpace (c : ascii) : bool :=
  existsb (N.eqb (code c)) [9; 10; 11; 12; 13; 32; 160]%N.

Definition atom_matches (a : ClassAtom) (c : ascii) : bool :=
  match a with
  | ClassRange lo hi => (code lo <=? code c)%N && (code c <=? code hi)%N
  | ClassChar c' => Ascii.eqb c c'
  | ClassWhiteSpace => isWhiteSpace c
  end.

Record CharClass := {
  negated : bool;
  atoms : list ClassAtom }.

Definition class_matches (cls : CharClass) (c : ascii) : bool :=
  xorb (negated cls) (existsb (fun a => atom_matches a c) (atoms cls)).

(** [s.replace(/[...]/g, replacement)] for a pattern that is one
    character class: every code unit the class matches is replaced. *)
Fixpoint String_replace (cls : CharClass) (replacement : string)
    (s : string) : string :=
  match s with
  | EmptyString => EmptyString
  | String c s' =>
      if class_matches cls c
      then replacement +:+ String_replace cls replacement s'
      else String c (String_replace cls replacement s')
  end.

(** ** [split] and [join] *)

(** [s.split(sep)] for a separator of one code unit. *)
Fixpoint String_split (sep : ascii) (s : string) : list string :=
  match s with
  | EmptyString => [EmptyString]
  | String c s' =>
      if Ascii.eqb c sep then EmptyString :: String_split sep s'
      else
        match String_split sep s' with
        | first :: others => String c first :: others
        | [] => [String c EmptyString]
        end
  end.

(** [parts.join(sep)]. *)
Fixpoint Array_join (sep : string) (parts : list string) : string :=
  match parts with
  | [] => EmptyString
  | [part] => part
  | part :: others => part +:+ sep +:+ Array_join sep others
  end.

(** A template literal prints a missing element as [undefined]. *)
Definition element0 (parts : list string) : string :=
  match parts with
  | first :: _ => first
  | [] => "undefined"
  end.

(* ===================================================================== *)
(** * Host built-ins: arrays *)
(* ===================================================================== *)

(** An array is an object in a store: a variable holds its location, and
    a method that works in place changes what every holder sees. *)
Definition loc := positive.

Section Array.
Context {A : Type}.

(** [[...a]]: a new array with the elements of [a]. *)
Definition Array_spread (h : gmap loc (list A)) (a : loc)
    : option (gmap loc (list A) * loc) :=
  elements ← h !! a;
  let copy := fresh (dom h) in
  Some (<[copy := elements]> h, copy).

(** [Array.prototype.sort(comparefn)].  The language asks for a stable
    sort that puts [x] after [y] only when [comparefn] tells so; the
    algorithm is the implementation's.  The model inserts the elements
    from the right, each one in front of the sorted rest and then past
    the elements [y] with [comparefn x y > 0]. *)
Variable comparefn : A -> A -> Q.

Fixpoint sort_insert (x : A) (l : list A) : list A :=
  match l with
  | [] => [x]
  | y :: l' =>
      if Qle_bool (comparefn x y) 0 then x :: l
      else y :: sort_insert x l'
  end.

Fixpoint sort_elements (l : list A) : list A :=
  match l with
  | [] => []
  | x :: l' => sort_insert x (sort_elements l')
  end.

(** The array at [a] is sorted in place, and [a] is the result. *)
Definition Array_sort (h : gmap loc (list A)) (a : loc)
    : option (gmap loc (list A) * loc) :=
  elements ← h !! a;
  Some (<[a := sort_elements elements]> h, a).
End Array.

(* ===================================================================== *)
(** * Data model (types/github.types.ts) *)
(* ===================================================================== *)

Module GitHubOwner.
Record t := mk {
  login : string;
  id : Z;
  avatar_url : string;
  url : string;
  type : string }.
End GitHubOwner.

Module GitHubLicense.
Record t := mk {
  key : string;
  name : string;
  spdx_id : string;
  url : option string }.
End GitHubLicense.

Module GitHubRepository.
Record t := mk {
  id : Z;
  node_id : string;
  name : string;
  full_name : string;
  owner : GitHubOwner.t;
  html_url : string;
  description : option string;
  fork : bool;
  created_at : string;
  updated_at : string;
  pushed_at : string;
  size : Z;
  stargazers_count : Z;
  watchers_count : Z;
  language : option string;
  forks_count : Z;
  open_issues_count : Z;
  default_branch : string;
  score : Q;
  topics : option (list string);
  license : option GitHubLicense.t }.

(** [{ ...repo, stargazers_count: n }] and its two siblings. *)
Definition with_stargazers_count (n : Z) (r : t) : t :=
  mk (id r) (node_id r) (name r) (full_name r) (owner r) (html_url r)
     (description r) (fork r) (created_at r) (updated_at r) (pushed_at r)
     (size r) n (watchers_count r) (language r) (forks_count r)
     (open_issues_count r) (default_branch r) (score r) (topics r)
     (license r).

Definition with_forks_count (n : Z) (r : t) : t :=
  mk (id r) (node_id r) (name r) (full_name r) (owner r) (html_url r)
     (description r) (fork r) (created_at r) (updated_at r) (pushed_at r)
     (size r) (stargazers_count r) (watchers_count r) (language r) n
     (open_issues_count r) (default_branch r) (score r) (topics r)
     (license r).

End GitHubRepository.

Module ScoredOwner.
Record t := mk {
  login : string;
  avatar_url : string;
  type : string }.
End ScoredOwner.

Module ScoredLicense.
Record t := mk {
  name : string;
  spdx_id : string }.
End ScoredLicense.

Module RepositoryWithScore.
Record t := mk {
  id : Z;
  name : string;
  full_name : string;
  owner : ScoredOwner.t;
  description : option string;
  html_url : string;
  language : option string;
  created_at : string;
  updated_at : string;
  stars : Z;
  forks : Z;
  open_issues : Z;
  topics : option (list string);
  license : option ScoredLicense.t;
  popularity_score : Q }.
End RepositoryWithScore.

Module ScoringWeights.
Record t := mk {
  stars : R;
  forks : R;
  recency : R }.
End ScoringWeights.

Inductive SortKey := sort_score | sort_stars | sort_forks | sort_updated.
Inductive SortOrder := desc | asc.

Module SearchQuery.
Record t := mk {
  language : option string;
  createdAfter : option string;
  sort : option SortKey;
  order : option SortOrder;
  page : option Z;
  perPage : option Z }.
End SearchQuery.

(* ===================================================================== *)
(** * Configuration (config) *)
(* ===================================================================== *)

Module ScoringConfig.
Record t := mk {
  weights : ScoringWeights.t;
  recencyDecayDays : R }.
End ScoringConfig.

(** The weights when no [SCORE_WEIGHT_*] variable is set. *)
Definition default_weights : ScoringWeights.t :=
  ScoringWeights.mk (4 / 10) (3 / 10) (3 / 10).

(** [config.scoring]: the weights come from the environment, the decay
    is the constant 365. *)
Definition config_scoring (weights : ScoringWeights.t) : ScoringConfig.t :=
  ScoringConfig.mk weights 365.

(* ===================================================================== *)
(** * Errors (utils/errors) *)
(* ===================================================================== *)

Inductive ErrorClass :=
| ValidationErrorClass
| GitHubAPIErrorClass
| RateLimitErrorClass
| NotFoundErrorClass.

Record AppError := {
  errorClass : ErrorClass;
  statusCode : Z;
  message : string;
  isOperational : bool;
  details : option (list (string * string)) }.

Definition ValidationError (message : string)
    (details : option (list (string * string))) : AppError :=
  {| errorClass := ValidationErrorClass; statusCode := 400;
     message := message; isOperational := true; details := details |}.

Definition GitHubAPIError (message : string) (statusCode : Z)
    (details : option (list (string * string))) : AppError :=
  {| errorClass := GitHubAPIErrorClass; statusCode := statusCode;
     message := message; isOperational := true; details := details |}.

(** What a call comes to: a value, or a thrown error. *)
Inductive Completion (A : Type) :=
| Return (a : A)
| Throw (e : AppError).
Arguments Return {A} a.
Arguments Throw {A} e.

#[export] Instance Completion_ret : MRet Completion := @Return.
#[export] Instance Completion_bind : MBind Completion :=
  fun A B f m => match m with Return a => f a | Throw e => Throw e end.

(* ===================================================================== *)
(** * ScoringService (services/scoring.service.ts) *)
(* ===================================================================== *)

Record ScoringService := {
  weights : ScoringWeights.t;
  recencyDecayDays : R }.

(** The constructor copies both fields of [config.scoring]. *)
Definition ScoringService_new (config : ScoringConfig.t) : ScoringService :=
  {| weights := ScoringConfig.weights config;
     recencyDecayDays := ScoringConfig.recencyDecayDays config |}.

Definition normalizeStars (stars : Z) : R :=
  if (stars <=? 0)%Z then 0%R
  else
    let maxStarsReference := 100000%R in
    let normalizedScore :=
      (Math_log10 (IZR stars + 1) / Math_log10 (maxStarsReference + 1))%R in
    Math_min normalizedScore 1.

Definition normalizeForks (forks : Z) : R :=
  if (forks <=? 0)%Z then 0%R
  else
    let maxForksReference := 10000%R in
    let normalizedScore :=
      (Math_log10 (IZR forks + 1) / Math_log10 (maxForksReference + 1))%R in
    Math_min normalizedScore 1.

(** [now] is the time value of the [new Date()] the method starts with. *)
Definition calculateRecencyScore `{JSDate} (this : ScoringService)
    (now : Z) (updatedAt : string) : option R :=
  lastUpdate ← Date_parse updatedAt;
  let daysSinceUpdate :=
    ((IZR now - IZR lastUpdate) / (1000 * 60 * 60 * 24))%R in
  let recencyScore :=
    Math_exp (- daysSinceUpdate / recencyDecayDays this)%R in
  Some (Math_max recencyScore 0).

Definition calculatePopularityScore `{JSDate} (this : ScoringService)
    (now : Z) (repo : GitHubRepository.t) : option Q :=
  let starsScore := normalizeStars (GitHubRepository.stargazers_count repo) in
  let forksScore := normalizeForks (GitHubRepository.forks_count repo) in
  recencyScore ←
    calculateRecencyScore this now (GitHubRepository.updated_at repo);
  let score :=
    (starsScore * ScoringWeights.stars (weights this) +
     forksScore * ScoringWeights.forks (weights this) +
     recencyScore * ScoringWeights.recency (weights this))%R in
  Some (inject_Z (Math_round (score * 10 * 100)) / 100)%Q.

Definition transformRepository `{JSDate} (this : ScoringService)
    (now : Z) (repo : GitHubRepository.t) : option RepositoryWithScore.t :=
  popularityScore ← calculatePopularityScore this now repo;
  Some (RepositoryWithScore.mk
    (GitHubRepository.id repo)
    (GitHubRepository.name repo)
    (GitHubRepository.full_name repo)
    (ScoredOwner.mk
       (GitHubOwner.login (GitHubRepository.owner repo))
       (GitHubOwner.avatar_url (GitHubRepository.owner repo))
       (GitHubOwner.type (GitHubRepository.owner repo)))
    (GitHubRepository.description repo)
    (GitHubRepository.html_url repo)
    (GitHubRepository.language repo)
    (GitHubRepository.created_at repo)
    (GitHubRepository.updated_at repo)
    (GitHubRepository.stargazers_count repo)
    (GitHubRepository.forks_count repo)
    (GitHubRepository.open_issues_count repo)
    (GitHubRepository.topics repo)
    (match GitHubRepository.license repo with
     | Some l =>
         Some (ScoredLicense.mk (GitHubLicense.name l)
                                (GitHubLicense.spdx_id l))
     | None => None
     end)
    popularityScore).

(** Each call of [transformRepository] reads the clock anew: [nows i] is
    the instant read for the record at index [i]. *)
Definition transformRepositories `{JSDate} (this : ScoringService)
    (nows : nat -> Z) (repos : list GitHubRepository.t)
    : option (list RepositoryWithScore.t) :=
  mapM (fun '(i, repo) => transformRepository this (nows i) repo)
       (imap pair repos).

(** The exported instance, [new ScoringService()], when no weight is set
    in the environment. *)
Definition scoringService : ScoringService :=
  ScoringService_new (config_scoring default_weights).

(** The comparator of [sortByPopularityScore]. *)
Definition compareScores (order : SortOrder)
    (a b : RepositoryWithScore.t) : Q :=
  match order with
  | desc =>
      RepositoryWithScore.popularity_score b -
      RepositoryWithScore.popularity_score a
  | asc =>
      RepositoryWithScore.popularity_score a -
      RepositoryWithScore.popularity_score b
  end.

(** [order] is [None] when the caller leaves the argument out. *)
Definition sortByPopularityScore (h : gmap loc (list RepositoryWithScore.t))
    (repos : loc) (order : option SortOrder)
    : option (gmap loc (list RepositoryWithScore.t) * loc) :=
  let order := default desc order in
  '(h, copy) ← Array_spread h repos;
  Array_sort (compareScores order) h copy.

(* ===================================================================== *)
(** * GitHubService *)
(* ===================================================================== *)

(** The test [if (s)] on an optional string: set and not empty. *)
Definition truthy (s : option string) : bool :=
  match s with
  | Some s => negb (String.eqb s "")
  | None => false
  end.

(** [input.replace(/[^a-zA-Z0-9\s\-_+#.]/g, '')] *)
Definition sanitizeInput (input : string) : string :=
  String_replace
    {| negated := true;
       atoms := [ClassRange "a" "z"; ClassRange "A" "Z"; ClassRange "0" "9";
                 ClassWhiteSpace; ClassChar "-"; ClassChar "_";
                 ClassChar "+"; ClassChar "#"; ClassChar "."] |}
    "" input.

(** The calls of the logger leave no mark on the result and are left
    out. *)
Definition buildQueryString `{JSDate} (query : SearchQuery.t)
    : Completion string :=
  let parts : list string := [] in
  let parts :=
    if truthy (SearchQuery.language query) then
      let sanitizedLanguage :=
        sanitizeInput (default "" (SearchQuery.language query)) in
      (parts ++ ["language:" +:+ sanitizedLanguage])%list
    else parts in
  parts ←
    (if truthy (SearchQuery.createdAfter query) then
       match Date_parse (default "" (SearchQuery.createdAfter query)) with
       | None =>
           Throw (ValidationError
             "Invalid date format for createdAfter. Use ISO 8601 format (YYYY-MM-DD)"
             None)
       | Some date =>
           let formattedDate :=
             element0 (String_split "T" (Date_toISOString date)) in
           Return (parts ++ ["created:>=" +:+ formattedDate])%list
       end
     else Return parts);
  let parts :=
    if (length parts =? 0)%nat then (parts ++ ["stars:>0"])%list
    else parts in
  let queryString := Array_join " " parts in
  Return queryString.

Definition mapSortParameter (sort : option SortKey) : option string :=
  match sort with
  | None => None
  | Some sort_score => None
  | Some sort_stars => Some "stars"
  | Some sort_forks => Some "forks"
  | Some sort_updated => Some "updated"
  end.

Module SearchParams.
Record t := mk {
  q : string;
  sort : option string;
  order : SortOrder;
  per_page : Z;
  page : Z }.
End SearchParams.

Module GitHubSearchResponse.
Record t := mk {
  total_count : Z;
  incomplete_results : bool;
  items : list GitHubRepository.t }.
End GitHubSearchResponse.

Module SearchResult.
Record t := mk {
  total_count : Z;
  incomplete_results : bool;
  items : loc;
  page : Z;
  per_page : Z }.
End SearchResult.

(** [x || d] on an optional number: [0] is falsy as well. *)
Definition or_default (x : option Z) (d : Z) : Z :=
  match x with
  | Some n => if n =? 0 then d else n
  | None => d
  end.

Definition config_api_defaultPerPage : Z := 30.

(** The upstream search provider: what [client.get] resolves to, after
    the response interceptor has turned a failure into an error. *)
Class Upstream := {
  client_get : string -> SearchParams.t -> Completion GitHubSearchResponse.t }.

(** The world of a search: the store of the arrays of scored records and
    the requests sent upstream so far, the latest first. *)
Record World := {
  store : gmap loc (list RepositoryWithScore.t);
  requests : list (string * SearchParams.t) }.

(** The result is [None] when a record has no time value for its
    [updated_at]: its score is [NaN], which [RepositoryWithScore.t] does
    not hold. *)
Definition searchRepositories `{JSDate} `{Upstream}
    (scoringService : ScoringService) (nows : nat -> Z)
    (query : SearchQuery.t) (w : World)
    : option (Completion SearchResult.t * World) :=
  match buildQueryString query with
  | Throw error => Some (Throw error, w)
  | Return q =>
      let params :=
        SearchParams.mk q
          (mapSortParameter (SearchQuery.sort query))
          (default desc (SearchQuery.order query))
          (or_default (SearchQuery.perPage query) config_api_defaultPerPage)
          (or_default (SearchQuery.page query) 1) in
      let w :=
        {| store := store w;
           requests := ("/search/repositories", params) :: requests w |} in
      match client_get "/search/repositories" params with
      | Throw error => Some (Throw error, w)
      | Return response =>
          scored ← transformRepositories scoringService nows
                     (GitHubSearchResponse.items response);
          let scoredItems := fresh (dom (store w)) in
          let h := <[scoredItems := scored]> (store w) in
          '(h, scoredItems) ←
            (match SearchQuery.sort query with
             | Some sort_score =>
                 sortByPopularityScore h scoredItems
                   (Some (default desc (SearchQuery.order query)))
             | _ => Some (h, scoredItems)
             end);
          Some (Return
                  (SearchResult.mk
                     (GitHubSearchResponse.total_count response)
                     (GitHubSearchResponse.incomplete_results response)
                     scoredItems
                     (SearchParams.page params)
                     (SearchParams.per_page params)),
                {| store := h; requests := requests w |})
      end
  end.

(* ===================================================================== *)
(** * The reference terms of the scoring model *)
(* ===================================================================== *)

(** Written from the description of the model, to be compared with the
    methods of [ScoringService]. *)

Definition normalizeLog (count : Z) (ceiling : R) : R :=
  if (count <=? 0)%Z then 0%R
  else Rmin 1 (Math_log10 (IZR count + 1) / Math_log10 (ceiling + 1))%R.

Definition exponentialDecay (daysSince halfLifeParameterDays : R) : R :=
  Rmax 0 (exp (- (daysSince / halfLifeParameterDays)))%R.

(** The days, with their fraction, from the time value [updatedAt] to
    the time value [now]. *)
Definition daysSince (updatedAt now : Z) : R :=
  (IZR (now - updatedAt) / 86400000)%R.

(** The score as a function of the two counts and of the recency term. *)
Definition roundedScore (this : ScoringService) (stars forks : Z)
    (recencyScore : R) : Q :=
  (inject_Z
     (Math_round
        ((normalizeStars stars * ScoringWeights.stars (weights this) +
          normalizeForks forks * ScoringWeights.forks (weights this) +
          recencyScore * ScoringWeights.recency (weights this)) * 10 * 100)%R)
   / 100)%Q.

(* ===================================================================== *)
(** * Order and ties of scored records *)
(* ===================================================================== *)

(** [a] may stand before [b] in a sequence in the given order. *)
Definition inOrder (order : SortOrder) (a b : RepositoryWithScore.t) : Prop :=
  match order with
  | desc =>
      (RepositoryWithScore.popularity_score b <=
       RepositoryWithScore.popularity_score a)%Q
  | asc =>
      (RepositoryWithScore.popularity_score a <=
       RepositoryWithScore.popularity_score b)%Q
  end.

(** The records whose score is [v]. *)
Definition hasScore (v : Q) (r : RepositoryWithScore.t) : bool :=
  Qeq_bool (RepositoryWithScore.popularity_score r) v.

(* ===================================================================== *)
(** * Allow-set and date form of the upstream query *)
(* ===================================================================== *)

(** Written from the description of the query, to be compared with
    [sanitizeInput] and with the date clause. *)

Fixpoint occursIn (c : ascii) (s : string) : bool :=
  match s with
  | EmptyString => false
  | String c' s' => Ascii.eqb c c' || occursIn c s'
  end.

Definition isLetter (c : ascii) : bool :=
  occursIn c "abcdefghijklmnopqrstuvwxyzABCDEFGHIJKLMNOPQRSTUVWXYZ".

Definition isDigit (c : ascii) : bool := occursIn c "0123456789".

(** Letters, digits, whitespace, hyphen, underscore, plus, hash and
    period. *)
Definition allowed (c : ascii) : bool :=
  isLetter c || isDigit c || isWhiteSpace c || occursIn c "-_+#.".

(** The string without its characters outside the allow-set. *)
Fixpoint keepAllowed (s : string) : string :=
  match s with
  | EmptyString => EmptyString
  | String c s' =>
      if allowed c then String c (keepAllowed s') else keepAllowed s'
  end.

(** The UTC date of a time value: year, month and day of the month. *)
Definition Date_isoDate (t : Z) : string :=
  isoYear (YearFromTime t) +:+ "-" +:+
  digits 2 (MonthFromTime t + 1) +:+ "-" +:+
  digits 2 (DateFromTime t).

(** The form [YYYY-MM-DD]: ten characters, digits but for the two
    hyphens. *)
Definition isYMD (s : string) : bool :=
  match s with
  | String y1 (String y2 (String y3 (String y4 (String h1
      (String m1 (String m2 (String h2 (String d1 (String d2
        EmptyString))))))))) =>
      isDigit y1 && isDigit y2 && isDigit y3 && isDigit y4 &&
      Ascii.eqb h1 "-" && isDigit m1 && isDigit m2 &&
      Ascii.eqb h2 "-" && isDigit d1 && isDigit d2
  | _ => false
  end.

(** The message of the error for a [createdAfter] without time value. *)
Definition invalidDateMessage : string :=
  "Invalid date format for createdAfter. Use ISO 8601 format (YYYY-MM-DD)".

(** A request with the given two filters and nothing else. *)
Definition searchQuery (language createdAfter : option string)
    : SearchQuery.t :=
  SearchQuery.mk language createdAfter None None None None.

(** An upstream that cannot be reached: the error [handleAPIError] makes
    of a request without response. *)
Definition unreachableUpstream : Upstream :=
  {| client_get := fun _ _ =>
       Throw (GitHubAPIError
         "Unable to reach GitHub API. Please check your network connection."
         503 None) |}.

(** A world with no array and no request. *)
Definition emptyWorld : World := {| store := ∅; requests := [] |}.

(* ===================================================================== *)
(** * Fixtures (services/__tests__/scoring.service.test.ts) *)
(* ===================================================================== *)

(** [createMockRepo(stars, forks, updatedAt)], with the random [id] and
    the clock read for [pushed_at] fixed. *)
Definition createMockRepo (stars forks : Z) (updatedAt : string)
    : GitHubRepository.t :=
  GitHubRepository.mk 1 "MDEwOlJlcG9zaXRvcnk" "test-repo" "owner/test-repo"
    (GitHubOwner.mk "owner" 1 "https://example.com/avatar.jpg"
                    "https://api.github.com/users/owner" "User")
    "https://github.com/owner/test-repo" (Some "Test repository") false
    "2023-01-01T00:00:00Z" updatedAt "2024-01-01T00:00:00Z" 1000 stars stars
    (Some "TypeScript") forks 10 "main" 1 None None.


(** [createMockRepoWithScore] with its score, the random [id] fixed. *)
Definition mockScored (s : Q) : RepositoryWithScore.t :=
  RepositoryWithScore.mk 1 "test-repo" "owner/test-repo"
    (ScoredOwner.mk "owner" "https://example.com/avatar.jpg" "User")
    (Some "Test repository") "https://github.com/owner/test-repo"
    (Some "TypeScript") "2023-01-01T00:00:00Z" "2023-01-01T00:00:00Z"
    1000 100 10 None None s.

(** The fixture of the sort tests: three records in upstream order. *)
Definition threeScored : list RepositoryWithScore.t :=
  [mockScored 4; mockScored 7.5; mockScored 5.5].

(* ===================================================================== *)
(** * A host for the examples: ISO dates *)
(* ===================================================================== *)

(** The part of the date-time format that the examples use: a date
    [YYYY-MM-DD] (or with a sign and a year of six digits), alone or
    followed by a UTC time [THH:mm:ss] with optional milliseconds and the
    suffix [Z].  Anything else has no time value here. *)

Definition digitValue (c : ascii) : option Z :=
  if (48 <=? code c)%N && (code c <=? 57)%N
  then Some (Z.of_N (code c) - 48) else None.

Fixpoint readDigits (n : nat) (acc : Z) (s : string) : option (Z * string) :=
  match n with
  | O => Some (acc, s)
  | S n' =>
      match s with
      | String c s' =>
          d ← digitValue c; readDigits n' (10 * acc + d) s'
      | EmptyString => None
      end
  end.

Definition readChar (c : ascii) (s : string) : option string :=
  match s with
  | String c' s' => if Ascii.eqb c c' then Some s' else None
  | EmptyString => None
  end.

Definition readYear (s : string) : option (Z * string) :=
  match s with
  | String "+" s' => readDigits 6 0 s'
  | String "-" s' =>
      '(y, rest) ← readDigits 6 0 s';
      if y =? 0 then None else Some (- y, rest)
  | _ => readDigits 4 0 s
  end.

(** Days before the first of month [m] (1 to 12) in a year. *)
Definition daysBeforeMonth (leap : Z) (m : Z) : Z :=
  match m with
  | 1 => 0
  | 2 => 31
  | 3 => 59 + leap
  | 4 => 90 + leap
  | 5 => 120 + leap
  | 6 => 151 + leap
  | 7 => 181 + leap
  | 8 => 212 + leap
  | 9 => 243 + leap
  | 10 => 273 + leap
  | 11 => 304 + leap
  | _ => 334 + leap
  end.

Definition MakeDay (y m d : Z) : option Z :=
  let leap := if DaysInYear y =? 366 then 1 else 0 in
  if (1 <=? m) && (m <=? 12) && (1 <=? d) &&
     (d <=? daysBeforeMonth leap (m + 1) - daysBeforeMonth leap m +
            (if m =? 12 then 31 else 0))
  then Some (DayFromYear y + daysBeforeMonth leap m + d - 1)
  else None.

Definition readTime (s : string) : option Z :=
  match s with
  | EmptyString => Some 0
  | String "T" s =>
      '(h, s) ← readDigits 2 0 s;
      s ← readChar ":" s;
      '(mi, s) ← readDigits 2 0 s;
      s ← readChar ":" s;
      '(sec, s) ← readDigits 2 0 s;
      '(ms, s) ←
        (match s with
         | String "." s' => readDigits 3 0 s'
         | _ => Some (0, s)
         end);
      if String.eqb s "Z" && (h <? 24) && (mi <? 60) && (sec <? 60)
      then Some (h * 3600000 + mi * 60000 + sec * 1000 + ms)
      else None
  | _ => None
  end.

(** A time out of the range of time values is no time value. *)
Definition TimeClip (t : Z) : option Z :=
  if (- maxTimeValue <=? t) && (t <=? maxTimeValue) then Some t else None.

Definition isoDate_parse (s : string) : option Z :=
  '(y, s) ← readYear s;
  s ← readChar "-" s;
  '(m, s) ← readDigits 2 0 s;
  s ← readChar "-" s;
  '(d, s) ← readDigits 2 0 s;
  day ← MakeDay y m d;
  time ← readTime s;
  TimeClip (day * msPerDay + time).


(* ===================================================================== *)
(** * Further notions for the properties of the code *)
(* ===================================================================== *)

(** Any two records at different places have different scores. *)
Definition pairwiseDistinctScores (l : list RepositoryWithScore.t) : Prop :=
  StronglySorted
    (fun a b =>
       ~ (RepositoryWithScore.popularity_score a ==
          RepositoryWithScore.popularity_score b)%Q) l.

(** How often the code unit [c] occurs in [s]. *)
Fixpoint countChar (c : ascii) (s : string) : nat :=
  match s with
  | EmptyString => O
  | String c' s' => ((if Ascii.eqb c c' then 1 else 0) + countChar c s')%nat
  end.

(** Every code unit of [s] passes the test [p]. *)
Fixpoint String_forallb (p : ascii -> bool) (s : string) : bool :=
  match s with
  | EmptyString => true
  | String c s' => p c && String_forallb p s'
  end.

(* ===================================================================== *)
(** * The language rule of the validator (middleware/validator) *)
(* ===================================================================== *)

(** [pattern.test(s)] for a pattern [/^[...]+$/]: one code unit or more,
    all of the class. *)
Definition RegExp_test_plus (cls : CharClass) (s : string) : bool :=
  negb (String.eqb s "") && String_forallb (class_matches cls) s.

(** [/^[a-zA-Z0-9#+\-_.]+$/] *)
Definition languagePattern : CharClass :=
  {| negated := false;
     atoms := [ClassRange "a" "z"; ClassRange "A" "Z"; ClassRange "0" "9";
               ClassChar "#"; ClassChar "+"; ClassChar "-"; ClassChar "_";
               ClassChar "."] |}.

(** [Joi.string().min(1).max(50).pattern(...)] on a string. *)
Definition validLanguage (language : string) : bool :=
  (1 <=? String.length language)%nat && (String.length language <=? 50)%nat
  && RegExp_test_plus languagePattern language.

(** The parameters of the request of a search, as [searchRepositories]
    puts them together. *)
Definition requestOf (query : SearchQuery.t) (q : string) : SearchParams.t :=
  SearchParams.mk q
    (mapSortParameter (SearchQuery.sort query))
    (default desc (SearchQuery.order query))
    (or_default (SearchQuery.perPage query) config_api_defaultPerPage)
    (or_default (SearchQuery.page query) 1).

(* ===================================================================== *)
(** * Further fixtures *)
(* ===================================================================== *)

(** An upstream that answers every request with the same page. *)
Definition fixedUpstream (response : GitHubSearchResponse.t) : Upstream :=
  {| client_get := fun _ _ => Return response |}.

(** A page of two records, the older one first. *)
Definition twoRepoPage : GitHubSearchResponse.t :=
  GitHubSearchResponse.mk 2 false
    [createMockRepo 10 5 "2023-01-01T00:00:00Z";
     createMockRepo 1000 100 "2024-01-01T00:00:00Z"].

(* ===================================================================== *)
(** * Host built-ins for the error path *)
(* ===================================================================== *)

(** A number the code reads from a string: an integer, or [NaN]. *)
Inductive Number :=
| NaN
| Num (z : Z).

(** The test [if (n)] on a number. *)
Definition Number_truthy (n : Number) : bool :=
  match n with
  | NaN => false
  | Num z => negb (z =? 0)
  end.

(** A JSON value that the code passes on without taking it apart. *)
Inductive JSON :=
| JNull
| JBool (b : bool)
| JNumber (q : Q)
| JString (s : string)
| JArray (elements : list JSON)
| JObject (fields : list (string * JSON)).

(** The test [if (v)] on such a value. *)
Definition JSON_truthy (v : JSON) : bool :=
  match v with
  | JNull => false
  | JBool b => b
  | JNumber q => negb (Qeq_bool q 0)
  | JString s => negb (String.eqb s "")
  | JArray _ => true
  | JObject _ => true
  end.

(** [s.startsWith(prefix)] and [s.includes(part)]. *)
Fixpoint String_startsWith (prefix s : string) : bool :=
  match prefix, s with
  | EmptyString, _ => true
  | String c prefix', String c' s' =>
      Ascii.eqb c c' && String_startsWith prefix' s'
  | String _ _, EmptyString => false
  end.

Fixpoint String_includes (part s : string) : bool :=
  String_startsWith part s ||
  match s with
  | EmptyString => false
  | String _ s' => String_includes part s'
  end.

(** [parseInt(s)] without a radix: leading whitespace, a sign, the prefix
    [0x] for base 16, then the longest run of digits; [NaN] without a
    digit. *)
Fixpoint trimStart (s : string) : string :=
  match s with
  | EmptyString => EmptyString
  | String c s' => if isWhiteSpace c then trimStart s' else s
  end.

Definition digitOfRadix (radix : Z) (c : ascii) : option Z :=
  let n := Z.of_N (code c) in
  let value :=
    if (48 <=? n) && (n <=? 57) then Some (n - 48)
    else if (97 <=? n) && (n <=? 122) then Some (n - 87)
    else if (65 <=? n) && (n <=? 90) then Some (n - 55)
    else None in
  match value with
  | Some d => if d <? radix then Some d else None
  | None => None
  end.

Fixpoint parseDigits (radix : Z) (acc : option Z) (s : string) : option Z :=
  match s with
  | EmptyString => acc
  | String c s' =>
      match digitOfRadix radix c with
      | Some d => parseDigits radix (Some (radix * default 0 acc + d)) s'
      | None => acc
      end
  end.

Definition parseInt (s : string) : Number :=
  let s := trimStart s in
  let '(sign, s) :=
    match s with
    | String "-" s' => (-1, s')
    | String "+" s' => (1, s')
    | _ => (1, s)
    end in
  let '(radix, s) :=
    match s with
    | String "0" (String "x" s') => (16, s')
    | String "0" (String "X" s') => (16, s')
    | _ => (10, s)
    end in
  match parseDigits radix None s with
  | Some n => Num (sign * n)
  | None => NaN
  end.

(** [Math.ceil(x / 1000)] for an integer [x]. *)
Definition ceilDiv1000 (x : Z) : Z := - ((- x) / 1000).

(* ===================================================================== *)
(** * The errors with all they carry (utils/errors) *)
(* ===================================================================== *)

(** The body of an upstream response, as the service reads it:
    [{ message?: string; errors?: unknown }]. *)
Module ResponseData.
Record t := mk {
  message : option string;
  errors : option JSON }.
End ResponseData.

(** An error object: one of the error classes with its fields, or any
    other error with its name, message and stack. *)
Inductive ErrorObject :=
| AppErrorObject (statusCode : Z) (message : string)
| ValidationErrorObject (message : string) (details : option JSON)
| GitHubAPIErrorObject (message : string) (statusCode : Z)
    (details : option ResponseData.t)
| RateLimitErrorObject (message : string) (resetTime : option Number)
| NotFoundErrorObject (message : string)
| OtherErrorObject (name : string) (message : string) (stack : option string).

(** [err instanceof AppError] *)
Definition isAppError (err : ErrorObject) : bool :=
  match err with
  | OtherErrorObject _ _ _ => false
  | _ => true
  end.

(** [err.constructor.name] *)
Definition ErrorObject_name (err : ErrorObject) : string :=
  match err with
  | AppErrorObject _ _ => "AppError"
  | ValidationErrorObject _ _ => "ValidationError"
  | GitHubAPIErrorObject _ _ _ => "GitHubAPIError"
  | RateLimitErrorObject _ _ => "RateLimitError"
  | NotFoundErrorObject _ => "NotFoundError"
  | OtherErrorObject name _ _ => name
  end.

(** [err.message] *)
Definition ErrorObject_message (err : ErrorObject) : string :=
  match err with
  | AppErrorObject _ message => message
  | ValidationErrorObject message _ => message
  | GitHubAPIErrorObject message _ _ => message
  | RateLimitErrorObject message _ => message
  | NotFoundErrorObject message => message
  | OtherErrorObject _ message _ => message
  end.

(** [err.statusCode], as the constructors set it; an error of another
    class has none. *)
Definition ErrorObject_statusCode (err : ErrorObject) : option Z :=
  match err with
  | AppErrorObject statusCode _ => Some statusCode
  | ValidationErrorObject _ _ => Some 400
  | GitHubAPIErrorObject _ statusCode _ => Some statusCode
  | RateLimitErrorObject _ _ => Some 429
  | NotFoundErrorObject _ => Some 404
  | OtherErrorObject _ _ _ => None
  end.

(* ===================================================================== *)
(** * GitHubService.handleAPIError *)
(* ===================================================================== *)

Module AxiosResponse.
Record t := mk {
  status : Z;
  data : ResponseData.t;
  x_ratelimit_reset : option string }.
End AxiosResponse.

(** [request] tells whether [error.request] is set. *)
Module AxiosError.
Record t := mk {
  response : option AxiosResponse.t;
  request : bool }.
End AxiosError.

(** [message || fallback] on an optional string. *)
Definition or_text (message : option string) (fallback : string) : string :=
  match message with
  | Some s => if String.eqb s "" then fallback else s
  | None => fallback
  end.

(** The method never returns: the result is the error it throws. *)
Definition handleAPIError (error : AxiosError.t) : ErrorObject :=
  match AxiosError.response error with
  | Some response =>
      let status := AxiosResponse.status response in
      let data := AxiosResponse.data response in
      if (status =? 403) &&
         match ResponseData.message data with
         | Some message => String_includes "rate limit" message
         | None => false
         end
      then
        let resetTime := AxiosResponse.x_ratelimit_reset response in
        RateLimitErrorObject
          "GitHub API rate limit exceeded. Please try again later."
          (if truthy resetTime then Some (parseInt (default "" resetTime))
           else None)
      else if status =? 422 then
        ValidationErrorObject
          (or_text (ResponseData.message data) "Validation failed")
          (ResponseData.errors data)
      else if status =? 503 then
        GitHubAPIErrorObject "GitHub API is temporarily unavailable" 503 None
      else
        GitHubAPIErrorObject
          (or_text (ResponseData.message data) "GitHub API request failed")
          status (Some data)
  | None =>
      if AxiosError.request error then
        GitHubAPIErrorObject
          "Unable to reach GitHub API. Please check your network connection."
          503 None
      else GitHubAPIErrorObject "An unexpected error occurred" 500 None
  end.

(* ===================================================================== *)
(** * The error handlers (middleware/errorHandler.ts) *)
(* ===================================================================== *)

(** What a response carries as [details]. *)
Inductive Details :=
| DetailsJSON (value : JSON)
| DetailsData (data : ResponseData.t)
| DetailsReset (resetAt : string) (resetIn : Z)
| DetailsStack (stack : option string).

Module ErrorResponse.
Record t := mk {
  error : string;
  message : string;
  statusCode : Z;
  details : option Details }.
End ErrorResponse.

(** What a handler does: it sends a response with a status and a body,
    or an error gets out of it. *)
Inductive Handled :=
| Responded (status : Z) (body : ErrorResponse.t)
| Raised (name : string) (message : string).

(** [nodeEnv] is [config.nodeEnv] and [now] is [Date.now()].  The call of
    the logger is left out. *)
Definition errorHandler (nodeEnv : string) (now : Z) (err : ErrorObject)
    : Handled :=
  match ErrorObject_statusCode err with
  | Some statusCode =>
      let response :=
        ErrorResponse.mk (ErrorObject_name err) (ErrorObject_message err)
                         statusCode None in
      match err with
      | ValidationErrorObject _ (Some details) =>
          Responded statusCode
            (if JSON_truthy details
             then ErrorResponse.mk (ErrorObject_name err)
                    (ErrorObject_message err) statusCode
                    (Some (DetailsJSON details))
             else response)
      | GitHubAPIErrorObject _ _ (Some details) =>
          Responded statusCode
            (ErrorResponse.mk (ErrorObject_name err)
               (ErrorObject_message err) statusCode
               (if String.eqb nodeEnv "development"
                then Some (DetailsData details) else None))
      | RateLimitErrorObject _ (Some resetTime) =>
          if Number_truthy resetTime then
            match resetTime with
            | Num seconds =>
                match TimeClip (seconds * 1000) with
                | Some resetDate =>
                    Responded statusCode
                      (ErrorResponse.mk (ErrorObject_name err)
                         (ErrorObject_message err) statusCode
                         (Some (DetailsReset
                                  (Date_toISOString resetDate)
                                  (Z.max 0 (ceilDiv1000 (resetDate - now))))))
                | None => Raised "RangeError" "Invalid time value"
                end
            | NaN => Responded statusCode response
            end
          else Responded statusCode response
      | _ => Responded statusCode response
      end
  | None =>
      Responded 500
        (ErrorResponse.mk "InternalServerError"
           (if String.eqb nodeEnv "production"
            then "An unexpected error occurred"
            else ErrorObject_message err)
           500
           (if String.eqb nodeEnv "development"
            then Some (DetailsStack
                         (match err with
                          | OtherErrorObject _ _ stack => stack
                          | _ => None
                          end))
            else None))
  end.

(** [notFoundHandler], from the method and the path of the request. *)
Definition notFoundHandler (method path : string) : Handled :=
  Responded 404
    (ErrorResponse.mk "NotFound"
       ("Route " +:+ method +:+ " " +:+ path +:+ " not found") 404 None).

(** The status and the body of a response agree. *)
Definition consistent (outcome : Handled) : Prop :=
  match outcome with
  | Responded status body => status = ErrorResponse.statusCode body
  | Raised _ _ => True
  end.

(** An upstream response that reports the rate limit, with the given
    header [x-ratelimit-reset]. *)
Definition rateLimitResponse (header : option string) : AxiosResponse.t :=
  AxiosResponse.mk 403
    (ResponseData.mk (Some "API rate limit exceeded for 203.0.113.7.") None)
    header.

(** An upstream response that rejects the query, with the list of what
    is wrong. *)
Definition validationFailedResponse : AxiosResponse.t :=
  AxiosResponse.mk 422
    (ResponseData.mk (Some "Validation Failed")
       (Some (JArray [JObject [("resource", JString "Search");
                               ("code", JString "missing")]])))
    None.
(* ===================================================================== *)
(** * The ISO host *)
(* ===================================================================== *)

Lemma isoDate_parse_range s t :
  isoDate_parse s = Some t -> - maxTimeValue <= t <= maxTimeValue.
Proof.
  unfold isoDate_parse. intros H.
  repeat match type of H with
  | mbind _ ?m = Some _ =>
      destruct m as [[]|] eqn:?; simpl in H; [| discriminate H]
  | mbind _ ?m = Some _ =>
      destruct m eqn:?; simpl in H; [| discriminate H]
  end.
  unfold TimeClip in H.
  destruct (_ && _) eqn:Hb; [| discriminate H].
  injection H as <-. lia.
Qed.

(** The host of the examples. *)
Definition isoDate : JSDate :=
  {| Date_parse := isoDate_parse; Date_parse_range := isoDate_parse_range |}.

(* ===================================================================== *)
(** * Properties of the scoring *)
(* ===================================================================== *)

Section Rounding.
Local Open Scope R_scope.

Lemma Math_round_le x y : x <= y -> (Math_round x <= Math_round y)%Z.
Proof. intros Hxy. apply Zfloor_le. lra. Qed.

Lemma Math_round_IZR k : Math_round (IZR k) = k.
Proof. apply Zfloor_eq. lra. Qed.


Lemma Math_round_lower k x : IZR k <= x -> (k <= Math_round x)%Z.
Proof.
  intros Hx. rewrite <- (Math_round_IZR k). now apply Math_round_le.
Qed.

Lemma Math_round_upper k x : x <= IZR k -> (Math_round x <= k)%Z.
Proof.
  intros Hx. rewrite <- (Math_round_IZR k). now apply Math_round_le.
Qed.
End Rounding.

(** Scores that are hundredths compare as their numerators. *)
Lemma hundredths_le (a b : Z) :
  (a <= b)%Z -> (inject_Z a / 100 <= inject_Z b / 100)%Q.
Proof.
  intros Hab. unfold Qle, Qdiv, Qmult, Qinv, inject_Z. simpl. lia.
Qed.

Lemma hundredths_ge_0 (a : Z) : (0 <= a)%Z -> (0 <= inject_Z a / 100)%Q.
Proof.
  intros Ha. unfold Qle, Qdiv, Qmult, Qinv, inject_Z. simpl. lia.
Qed.

Lemma hundredths_le_10 (a : Z) : (a <= 1000)%Z -> (inject_Z a / 100 <= 10)%Q.
Proof.
  intros Ha. unfold Qle, Qdiv, Qmult, Qinv, inject_Z. simpl. lia.
Qed.

Lemma hundredths_gt_10 (a : Z) : (1000 < a)%Z -> (10 < inject_Z a / 100)%Q.
Proof.
  intros Ha. unfold Qlt, Qdiv, Qmult, Qinv, inject_Z. simpl. lia.
Qed.

Lemma hundredths_integer (a : Z) :
  (inject_Z a / 100 * 100 == inject_Z a)%Q.
Proof. field. Qed.

Section LogTerm.
Local Open Scope R_scope.

Lemma log10_pos x : 1 < x -> 0 < Math_log10 x.
Proof.
  intros Hx. unfold Math_log10.
  assert (0 < ln x) by (rewrite <- ln_1; apply ln_increasing; lra).
  assert (0 < ln 10) by (rewrite <- ln_1; apply ln_increasing; lra).
  now apply Rdiv_lt_0_compat.
Qed.

Lemma log10_le x y : 0 < x -> x <= y -> Math_log10 x <= Math_log10 y.
Proof.
  intros Hx Hxy. unfold Math_log10.
  assert (0 < ln 10) by (rewrite <- ln_1; apply ln_increasing; lra).
  apply Rmult_le_compat_r; [left; now apply Rinv_0_lt_compat |].
  destruct Hxy as [Hlt | ->]; [left; now apply ln_increasing | lra].
Qed.

Lemma normalizeLog_range count ceiling :
  0 < ceiling -> 0 <= normalizeLog count ceiling <= 1.
Proof.
  intros Hc. unfold normalizeLog.
  destruct (Z.leb_spec count 0) as [Hle | Hgt]; [lra |].
  assert (1 < IZR count + 1) by (apply IZR_lt in Hgt; lra).
  assert (0 < Math_log10 (IZR count + 1)) by now apply log10_pos.
  assert (0 < Math_log10 (ceiling + 1)) by (apply log10_pos; lra).
  split; [| apply Rmin_l].
  apply Rmin_glb; [lra |].
  left. now apply Rdiv_lt_0_compat.
Qed.

Lemma normalizeLog_le c1 c2 ceiling :
  0 < ceiling -> (c1 <= c2)%Z ->
  normalizeLog c1 ceiling <= normalizeLog c2 ceiling.
Proof.
  intros Hc H12.
  destruct (Z.leb_spec c1 0) as [Hle | Hgt].
  - replace (normalizeLog c1 ceiling) with 0.
    + now apply normalizeLog_range.
    + unfold normalizeLog. destruct (Z.leb_spec c1 0); [easy | lia].
  - unfold normalizeLog.
    destruct (Z.leb_spec c1 0); [lia |].
    destruct (Z.leb_spec c2 0); [lia |].
    assert (0 < Math_log10 (ceiling + 1)) by (apply log10_pos; lra).
    apply Rle_min_compat_l.
    apply Rmult_le_compat_r; [left; now apply Rinv_0_lt_compat |].
    apply log10_le; [apply IZR_lt in Hgt; lra |].
    apply IZR_le in H12. lra.
Qed.

Lemma normalizeLog_ceiling count (ceiling : Z) :
  0 < IZR ceiling -> IZR ceiling <= IZR count ->
  normalizeLog count (IZR ceiling) = 1.
Proof.
  intros Hc Hle. unfold normalizeLog.
  destruct (Z.leb_spec count 0) as [H0 | H0]; [apply IZR_le in H0; lra |].
  assert (0 < Math_log10 (IZR ceiling + 1)) by (apply log10_pos; lra).
  apply Rmin_left.
  apply (Rmult_le_reg_r (Math_log10 (IZR ceiling + 1))); [easy |].
  unfold Rdiv. rewrite Rmult_assoc, Rinv_l by lra.
  rewrite Rmult_1_l, Rmult_1_r. apply log10_le; lra.
Qed.

Lemma normalizeStars_spec stars :
  normalizeStars stars = normalizeLog stars 100000.
Proof.
  unfold normalizeStars, normalizeLog, Math_min.
  destruct (stars <=? 0)%Z; [reflexivity | apply Rmin_comm].
Qed.

Lemma normalizeForks_spec forks :
  normalizeForks forks = normalizeLog forks 10000.
Proof.
  unfold normalizeForks, normalizeLog, Math_min.
  destruct (forks <=? 0)%Z; [reflexivity | apply Rmin_comm].
Qed.
End LogTerm.

Section RecencyTerm.
Local Open Scope R_scope.

Lemma exponentialDecay_exp d h : exponentialDecay d h = exp (- (d / h)).
Proof.
  unfold exponentialDecay. apply Rmax_right. left. apply exp_pos.
Qed.

Lemma exponentialDecay_pos d h : 0 < exponentialDecay d h.
Proof. rewrite exponentialDecay_exp. apply exp_pos. Qed.

Lemma exponentialDecay_le_1 d h :
  0 < h -> 0 <= d -> exponentialDecay d h <= 1.
Proof.
  intros Hh Hd. rewrite exponentialDecay_exp, <- exp_0.
  assert (0 <= d / h) by (apply Rmult_le_pos; [| left; apply Rinv_0_lt_compat]; lra).
  destruct (Req_dec (d / h) 0) as [-> | Hne].
  - rewrite Ropp_0. lra.
  - left. apply exp_increasing. lra.
Qed.

Lemma exponentialDecay_decreasing d1 d2 h :
  0 < h -> d1 < d2 -> exponentialDecay d2 h < exponentialDecay d1 h.
Proof.
  intros Hh Hd. rewrite !exponentialDecay_exp. apply exp_increasing.
  apply Ropp_lt_contravar. apply Rmult_lt_compat_r; [| easy].
  now apply Rinv_0_lt_compat.
Qed.


Lemma daysSince_nonneg t now : (t <= now)%Z -> 0 <= daysSince t now.
Proof.
  intros Ht. unfold daysSince. apply Rmult_le_pos; [| lra].
  apply IZR_le. lia.
Qed.

Lemma calculateRecencyScore_spec `{JSDate} this now updatedAt :
  calculateRecencyScore this now updatedAt =
  (fun t => exponentialDecay (daysSince t now) (recencyDecayDays this))
    <$> Date_parse updatedAt.
Proof.
  unfold calculateRecencyScore.
  destruct (Date_parse updatedAt) as [t |]; [| reflexivity].
  simpl. f_equal. unfold Math_max, Math_exp, exponentialDecay, daysSince.
  rewrite Rmax_comm, minus_IZR. do 2 f_equal.
  replace (1000 * 60 * 60 * 24) with 86400000 by lra.
  unfold Rdiv. ring.
Qed.
End RecencyTerm.

Lemma calculatePopularityScore_rounded `{JSDate} this now repo :
  calculatePopularityScore this now repo =
  roundedScore this (GitHubRepository.stargazers_count repo)
                    (GitHubRepository.forks_count repo)
    <$> calculateRecencyScore this now (GitHubRepository.updated_at repo).
Proof.
  unfold calculatePopularityScore.
  now destruct (calculateRecencyScore this now _).
Qed.

Section WeightedSum.
Local Open Scope R_scope.
Variable this : ScoringService.
Hypothesis stars_weight : 0 <= ScoringWeights.stars (weights this).
Hypothesis forks_weight : 0 <= ScoringWeights.forks (weights this).
Hypothesis recency_weight : 0 <= ScoringWeights.recency (weights this).

Lemma roundedScore_le s1 s2 f1 f2 r1 r2 :
  (s1 <= s2)%Z -> (f1 <= f2)%Z -> r1 <= r2 ->
  (roundedScore this s1 f1 r1 <= roundedScore this s2 f2 r2)%Q.
Proof.
  intros Hs Hf Hr. apply hundredths_le, Math_round_le.
  pose proof (normalizeLog_le s1 s2 100000 ltac:(lra) Hs) as Hs'.
  pose proof (normalizeLog_le f1 f2 10000 ltac:(lra) Hf) as Hf'.
  rewrite !normalizeStars_spec, !normalizeForks_spec. nra.
Qed.

Lemma roundedScore_nonneg s f r :
  0 <= r -> (0 <= roundedScore this s f r)%Q.
Proof.
  intros Hr. apply hundredths_ge_0, Math_round_lower.
  pose proof (normalizeLog_range s 100000 ltac:(lra)).
  pose proof (normalizeLog_range f 10000 ltac:(lra)).
  rewrite normalizeStars_spec, normalizeForks_spec. nra.
Qed.

Hypothesis weights_sum :
  ScoringWeights.stars (weights this) + ScoringWeights.forks (weights this)
  + ScoringWeights.recency (weights this) <= 1.

Lemma roundedScore_le_10 s f r :
  r <= 1 -> (roundedScore this s f r <= 10)%Q.
Proof.
  intros Hr. apply hundredths_le_10, Math_round_upper.
  pose proof (normalizeLog_range s 100000 ltac:(lra)).
  pose proof (normalizeLog_range f 10000 ltac:(lra)).
  rewrite normalizeStars_spec, normalizeForks_spec. nra.
Qed.
End WeightedSum.

(** The score of a record with a time value for its [updated_at]. *)
Lemma calculatePopularityScore_Some `{JSDate} this now repo t :
  Date_parse (GitHubRepository.updated_at repo) = Some t ->
  calculatePopularityScore this now repo =
  Some (roundedScore this (GitHubRepository.stargazers_count repo)
          (GitHubRepository.forks_count repo)
          (exponentialDecay (daysSince t now) (recencyDecayDays this))).
Proof.
  intros Ht.
  now rewrite calculatePopularityScore_rounded, calculateRecencyScore_spec, Ht.
Qed.

(** X1.  When the update is not after [now] and the weights are
    non-negative with a sum of at most 1, the score lies in [0, 10] and
    is a number of hundredths. *)
Lemma calculatePopularityScore_range `{JSDate} this now repo t :
  (0 <= ScoringWeights.stars (weights this))%R ->
  (0 <= ScoringWeights.forks (weights this))%R ->
  (0 <= ScoringWeights.recency (weights this))%R ->
  (ScoringWeights.stars (weights this) + ScoringWeights.forks (weights this)
   + ScoringWeights.recency (weights this) <= 1)%R ->
  (0 < recencyDecayDays this)%R ->
  Date_parse (GitHubRepository.updated_at repo) = Some t ->
  t <= now ->
  exists v, calculatePopularityScore this now repo = Some v /\
            (0 <= v)%Q /\ (v <= 10)%Q /\
            exists k : Z, (v * 100 == inject_Z k)%Q.
Proof.
  intros Hs Hf Hr Hsum Hd Ht Hnow.
  rewrite (calculatePopularityScore_Some _ _ _ _ Ht).
  eexists; split; [reflexivity |].
  pose proof (exponentialDecay_pos (daysSince t now) (recencyDecayDays this)).
  pose proof (exponentialDecay_le_1 _ _ Hd (daysSince_nonneg _ _ Hnow)).
  split; [apply roundedScore_nonneg; try easy; lra |].
  split; [now apply roundedScore_le_10 |].
  eexists. apply hundredths_integer.
Qed.

Lemma scoringService_weights :
  (0 <= ScoringWeights.stars (weights scoringService))%R /\
  (0 <= ScoringWeights.forks (weights scoringService))%R /\
  (0 <= ScoringWeights.recency (weights scoringService))%R /\
  (ScoringWeights.stars (weights scoringService)
   + ScoringWeights.forks (weights scoringService)
   + ScoringWeights.recency (weights scoringService) <= 1)%R /\
  (0 < recencyDecayDays scoringService)%R.
Proof. simpl. lra. Qed.

(** C1 (the code departs from the claim).  With the default weights, a
    record at both ceilings whose update lies a year after [now] gets a
    score above 10: the recency term is not capped at 1. *)
Theorem calculatePopularityScore_future_update_above_10 :
  exists v,
    @calculatePopularityScore isoDate scoringService 1704067200000
      (createMockRepo 100000 10000 "2025-01-01T00:00:00Z") = Some v /\
    (10 < v)%Q.
Proof.
  assert (Ht : @Date_parse isoDate "2025-01-01T00:00:00Z" = Some 1735689600000)
    by (vm_compute; reflexivity).
  rewrite (@calculatePopularityScore_Some isoDate scoringService _
             (createMockRepo 100000 10000 "2025-01-01T00:00:00Z") _ Ht).
  eexists; split; [reflexivity |].
  apply hundredths_gt_10.
  apply (Z.lt_le_trans _ 1300); [lia |].
  apply Math_round_lower.
  cbn [createMockRepo GitHubRepository.stargazers_count
       GitHubRepository.forks_count].
  rewrite normalizeStars_spec, normalizeForks_spec.
  rewrite (normalizeLog_ceiling 100000 100000) by lra.
  rewrite (normalizeLog_ceiling 10000 10000) by lra.
  rewrite exponentialDecay_exp.
  pose proof (exp_ineq1_le
    (- (daysSince 1735689600000 1704067200000
        / recencyDecayDays scoringService))) as He.
  unfold daysSince in *. simpl in *.
  replace (IZR (1704067200000 - 1735689600000) / 86400000 / 365)%R
    with (- (366 / 365))%R in * by (rewrite minus_IZR; lra).
  lra.
Qed.






(** C3.  With non-negative weights (and the positive decay of the
    configuration) the score never decreases when the star count grows,
    and never decreases when the fork count grows, all else (the record
    and [now]) being equal. *)
Theorem calculatePopularityScore_monotone_counts `{JSDate}
    (this : ScoringService) (now : Z) (repo : GitHubRepository.t)
    (t c1 c2 : Z) :
  (0 <= ScoringWeights.stars (weights this))%R ->
  (0 <= ScoringWeights.forks (weights this))%R ->
  (0 < recencyDecayDays this)%R ->
  Date_parse (GitHubRepository.updated_at repo) = Some t ->
  0 <= c1 -> c1 < c2 ->
  (exists v1 v2 : Q,
     calculatePopularityScore this now
       (GitHubRepository.with_stargazers_count c1 repo) = Some v1 /\
     calculatePopularityScore this now
       (GitHubRepository.with_stargazers_count c2 repo) = Some v2 /\
     (v1 <= v2)%Q) /\
  (exists v1 v2 : Q,
     calculatePopularityScore this now
       (GitHubRepository.with_forks_count c1 repo) = Some v1 /\
     calculatePopularityScore this now
       (GitHubRepository.with_forks_count c2 repo) = Some v2 /\
     (v1 <= v2)%Q).
Proof.
  intros Hs Hf _ Ht H0 H12.
  pose proof (normalizeLog_le c1 c2 100000 ltac:(lra) ltac:(lia)) as Hstars.
  pose proof (normalizeLog_le c1 c2 10000 ltac:(lra) ltac:(lia)) as Hforks.
  split.
  - do 2 eexists.
    rewrite (calculatePopularityScore_Some this now
               (GitHubRepository.with_stargazers_count c1 repo) t Ht).
    rewrite (calculatePopularityScore_Some this now
               (GitHubRepository.with_stargazers_count c2 repo) t Ht).
    repeat (split; [reflexivity |]).
    apply hundredths_le, Math_round_le. simpl.
    rewrite !normalizeStars_spec. nra.
  - do 2 eexists.
    rewrite (calculatePopularityScore_Some this now
               (GitHubRepository.with_forks_count c1 repo) t Ht).
    rewrite (calculatePopularityScore_Some this now
               (GitHubRepository.with_forks_count c2 repo) t Ht).
    repeat (split; [reflexivity |]).
    apply hundredths_le, Math_round_le. simpl.
    rewrite !normalizeForks_spec. nra.
Qed.

Lemma calculatePopularityScore_monotone_counts_witness :
  (exists v1 v2 : Q,
     @calculatePopularityScore isoDate scoringService 1704067200000
       (GitHubRepository.with_stargazers_count 1000
          (createMockRepo 1000 100 "2023-01-01T00:00:00Z")) = Some v1 /\
     @calculatePopularityScore isoDate scoringService 1704067200000
       (GitHubRepository.with_stargazers_count 10000
          (createMockRepo 1000 100 "2023-01-01T00:00:00Z")) = Some v2 /\
     (v1 <= v2)%Q) /\
  (exists v1 v2 : Q,
     @calculatePopularityScore isoDate scoringService 1704067200000
       (GitHubRepository.with_forks_count 1000
          (createMockRepo 1000 100 "2023-01-01T00:00:00Z")) = Some v1 /\
     @calculatePopularityScore isoDate scoringService 1704067200000
       (GitHubRepository.with_forks_count 10000
          (createMockRepo 1000 100 "2023-01-01T00:00:00Z")) = Some v2 /\
     (v1 <= v2)%Q).
Proof.
  apply (@calculatePopularityScore_monotone_counts isoDate scoringService
           1704067200000 (createMockRepo 1000 100 "2023-01-01T00:00:00Z")
           1672531200000 1000 10000).
  - simpl. lra.
  - simpl. lra.
  - simpl. lra.
  - vm_compute. reflexivity.
  - lia.
  - lia.
Defined.

(** C4.  The three terms of the score are the reference terms: the
    logarithmic normalisation with ceiling 100000 for the stars and 10000
    for the forks, and the exponential decay of the days since the update
    with the configured half-life parameter (no term when the update has
    no time value). *)
Theorem scoring_terms_reference `{JSDate} :
  (forall stars : Z, normalizeStars stars = normalizeLog stars 100000) /\
  (forall forks : Z, normalizeForks forks = normalizeLog forks 10000) /\
  (forall (this : ScoringService) (now : Z) (updatedAt : string),
     calculateRecencyScore this now updatedAt =
     (fun t => exponentialDecay (daysSince t now) (recencyDecayDays this))
       <$> Date_parse updatedAt).
Proof.
  split; [exact normalizeStars_spec |].
  split; [exact normalizeForks_spec |].
  exact calculateRecencyScore_spec.
Qed.

(* ===================================================================== *)
(** * Properties of the sort *)
(* ===================================================================== *)

Section StableSort.
Context {A : Type}.
Variable comparefn : A -> A -> Q.

(** [x] may stay in front of [y]. *)
Let keeps (x y : A) : Prop := Qle_bool (comparefn x y) 0 = true.

Lemma sort_insert_perm x l : sort_insert comparefn x l ≡ₚ x :: l.
Proof.
  induction l as [| y l IH]; simpl; [reflexivity |].
  destruct (Qle_bool (comparefn x y) 0); [reflexivity |].
  rewrite IH. apply perm_swap.
Qed.

Lemma sort_elements_perm l : sort_elements comparefn l ≡ₚ l.
Proof.
  induction l as [| x l IH]; simpl; [reflexivity |].
  now rewrite sort_insert_perm, IH.
Qed.

(** A sequence that is in order already is left as it is. *)
Lemma sort_elements_sorted_id l :
  Sorted keeps l -> sort_elements comparefn l = l.
Proof.
  induction 1 as [| x l Hl IH Hhd]; simpl; [reflexivity |].
  rewrite IH. destruct Hhd as [| y l' Hxy]; simpl; [reflexivity |].
  unfold keeps in Hxy. now rewrite Hxy.
Qed.

(** The elements of a class whose members are tied keep their places
    among themselves. *)
Lemma sort_insert_filter (p : A -> bool) x l :
  (forall y, p x = true -> p y = true -> keeps x y) ->
  List.filter p (sort_insert comparefn x l) = List.filter p (x :: l).
Proof.
  intros Htie. induction l as [| y l IH]; simpl; [reflexivity |].
  destruct (Qle_bool (comparefn x y) 0) eqn:Hxy; simpl; [reflexivity |].
  rewrite IH. simpl.
  destruct (p x) eqn:Hpx, (p y) eqn:Hpy; try reflexivity.
  specialize (Htie y eq_refl Hpy). unfold keeps in Htie. congruence.
Qed.

Lemma sort_elements_filter (p : A -> bool) l :
  (forall x y, p x = true -> p y = true -> keeps x y) ->
  List.filter p (sort_elements comparefn l) = List.filter p l.
Proof.
  intros Htie. induction l as [| x l IH]; simpl; [reflexivity |].
  rewrite sort_insert_filter by (intros y; apply Htie).
  simpl. now rewrite IH.
Qed.

Hypothesis keeps_total : forall x y, ~ keeps x y -> keeps y x.
Hypothesis keeps_trans : forall x y z, keeps x y -> keeps y z -> keeps x z.

Lemma sort_insert_sorted x l :
  StronglySorted keeps l -> StronglySorted keeps (sort_insert comparefn x l).
Proof.
  induction 1 as [| y l Hl IH Hy]; simpl.
  - constructor; constructor.
  - destruct (Qle_bool (comparefn x y) 0) eqn:Hxy.
    + constructor; [now constructor |].
      constructor; [exact Hxy |].
      eapply Forall_impl; [exact Hy |].
      intros z Hyz. now apply (keeps_trans x y z).
    + constructor; [exact IH |].
      rewrite sort_insert_perm. constructor; [| exact Hy].
      apply keeps_total. unfold keeps. congruence.
Qed.

Lemma sort_elements_sorted l : StronglySorted keeps (sort_elements comparefn l).
Proof.
  induction l as [| x l IH]; simpl; [constructor |].
  now apply sort_insert_sorted.
Qed.

Lemma keeps_refl x : keeps x x.
Proof.
  destruct (Qle_bool (comparefn x x) 0) eqn:Hx; [exact Hx |].
  apply keeps_total. unfold keeps. congruence.
Qed.

(** [x] and [y] are tied: each may stay in front of the other. *)
Let tied (x y : A) : bool :=
  Qle_bool (comparefn x y) 0 && Qle_bool (comparefn y x) 0.

(** The order and the places of the tied elements leave one sequence
    only: whatever algorithm sorts stably gives the sequence of the
    model. *)
Lemma stable_sorted_unique l1 l2 :
  l1 ≡ₚ l2 ->
  StronglySorted keeps l1 -> StronglySorted keeps l2 ->
  (forall x, List.filter (tied x) l1 = List.filter (tied x) l2) ->
  l1 = l2.
Proof.
  revert l2. induction l1 as [| a l1 IH]; intros l2 Hperm Hs1 Hs2 Hties.
  - symmetry. now apply Permutation_nil.
  - destruct l2 as [| b l2];
      [symmetry in Hperm; now apply Permutation_nil_cons in Hperm |].
    apply StronglySorted_inv in Hs1 as [Hs1 Ha].
    apply StronglySorted_inv in Hs2 as [Hs2 Hb].
    rewrite List.Forall_forall in Ha, Hb.
    assert (Hab : keeps a b).
    { assert (Hin : List.In b (a :: l1))
        by (eapply Permutation_in; [symmetry; exact Hperm | now left]).
      destruct Hin as [<- | Hin]; [apply keeps_refl | now apply Ha]. }
    assert (Hba : keeps b a).
    { assert (Hin : List.In a (b :: l2))
        by (eapply Permutation_in; [exact Hperm | now left]).
      destruct Hin as [<- | Hin]; [apply keeps_refl | now apply Hb]. }
    assert (Heq : a = b).
    { assert (Haa : tied a a = true)
        by (unfold tied; now rewrite (keeps_refl a)).
      assert (Htie : tied a b = true)
        by (unfold tied; unfold keeps in Hab, Hba; now rewrite Hab, Hba).
      specialize (Hties a). cbn [List.filter] in Hties.
      rewrite Haa, Htie in Hties. congruence. }
    subst b. f_equal. apply IH; [| exact Hs1 | exact Hs2 |].
    + eapply Permutation_cons_inv, Hperm.
    + intros x. specialize (Hties x). cbn [List.filter] in Hties.
      destruct (tied x a); congruence.
Qed.

Lemma sort_elements_unique l l' :
  l' ≡ₚ l -> StronglySorted keeps l' ->
  (forall x, List.filter (tied x) l' = List.filter (tied x) l) ->
  l' = sort_elements comparefn l.
Proof.
  intros Hperm Hsorted Hties. apply stable_sorted_unique.
  - now rewrite sort_elements_perm.
  - exact Hsorted.
  - apply sort_elements_sorted.
  - intros x. rewrite Hties. symmetry. apply sort_elements_filter.
    intros y z [_ Hy]%andb_true_iff [Hz _]%andb_true_iff.
    now apply (keeps_trans y x z).
Qed.
End StableSort.

Lemma StronglySorted_weaken {A} (R R' : A -> A -> Prop) l :
  (forall x y, R x y -> R' x y) -> StronglySorted R l -> StronglySorted R' l.
Proof.
  intros Himp. induction 1 as [| x l Hl IH Hx]; constructor; [exact IH |].
  eapply Forall_impl; [exact Hx | apply Himp].
Qed.

Lemma compareScores_keeps order a b :
  Qle_bool (compareScores order a b) 0 = true <-> inOrder order a b.
Proof.
  rewrite Qle_bool_iff. destruct order; simpl;
    set (x := RepositoryWithScore.popularity_score a);
    set (y := RepositoryWithScore.popularity_score b);
    unfold Qle, Qminus, Qplus, Qopp; simpl; lia.
Qed.

Lemma inOrder_total order a b : ~ inOrder order a b -> inOrder order b a.
Proof.
  destruct order; simpl; intros H; apply Qlt_le_weak, Qnot_le_lt, H.
Qed.

Lemma inOrder_trans order a b c :
  inOrder order a b -> inOrder order b c -> inOrder order a c.
Proof.
  destruct order; simpl; intros Hab Hbc; eapply Qle_trans; eassumption.
Qed.

Lemma hasScore_tie order v a b :
  hasScore v a = true -> hasScore v b = true -> inOrder order a b.
Proof.
  unfold hasScore. intros Ha%Qeq_bool_iff Hb%Qeq_bool_iff.
  destruct order; simpl; rewrite Ha, Hb; apply Qle_refl.
Qed.

Lemma sort_scores_keeps_sorted order items :
  StronglySorted (fun a b => Qle_bool (compareScores order a b) 0 = true)
    (sort_elements (compareScores order) items).
Proof.
  apply sort_elements_sorted.
  - intros a b Hab. apply compareScores_keeps, inOrder_total.
    intros Hn. apply Hab. now apply compareScores_keeps.
  - intros a b c Hab%compareScores_keeps Hbc%compareScores_keeps.
    apply compareScores_keeps. eapply inOrder_trans; eassumption.
Qed.

Lemma sort_scores_sorted order items :
  StronglySorted (inOrder order) (sort_elements (compareScores order) items).
Proof.
  eapply StronglySorted_weaken; [| apply sort_scores_keeps_sorted].
  intros a b Hab. apply compareScores_keeps, Hab.
Qed.

(** Sorting what the sort has produced changes nothing. *)
Lemma sort_scores_idempotent order items :
  sort_elements (compareScores order)
    (sort_elements (compareScores order) items)
  = sort_elements (compareScores order) items.
Proof.
  apply sort_elements_sorted_id, StronglySorted_Sorted,
    sort_scores_keeps_sorted.
Qed.

(** What a call of [sortByPopularityScore] does to the store. *)
Lemma sortByPopularityScore_run h repos order items :
  h !! repos = Some items ->
  sortByPopularityScore h repos order =
  Some (<[fresh (dom h) :=
            sort_elements (compareScores (default desc order)) items]> h,
        fresh (dom h)).
Proof.
  intros Hitems. unfold sortByPopularityScore, Array_spread, Array_sort.
  rewrite Hitems. simpl. rewrite lookup_insert_eq. simpl.
  now rewrite insert_insert_eq.
Qed.

Lemma fresh_not_allocated (h : gmap loc (list RepositoryWithScore.t)) l :
  is_Some (h !! l) -> l <> fresh (dom h).
Proof.
  intros Hl%elem_of_dom ->. now apply (is_fresh (dom h)).
Qed.

(** C8.  The call returns an array whose records stand in the requested
    order of their scores (descending when no order is given), and for
    every score the records that have it stand as they stood in the
    argument.  The three records with the scores 4.0, 7.5 and 5.5 come
    out as 7.5, 5.5, 4.0 for [desc] and as 4.0, 5.5, 7.5 for [asc]. *)
Theorem sortByPopularityScore_ordered_stable
    (h : gmap loc (list RepositoryWithScore.t)) (repos : loc)
    (order : option SortOrder) (items : list RepositoryWithScore.t) :
  h !! repos = Some items ->
  (exists h' out sorted,
     sortByPopularityScore h repos order = Some (h', out) /\
     h' !! out = Some sorted /\
     StronglySorted (inOrder (default desc order)) sorted /\
     (forall v : Q,
        List.filter (hasScore v) sorted = List.filter (hasScore v) items)) /\
  (exists h' out sorted,
     sortByPopularityScore {[ 1%positive := threeScored ]} 1%positive
       (Some desc) = Some (h', out) /\
     h' !! out = Some sorted /\
     map RepositoryWithScore.popularity_score sorted = [7.5; 5.5; 4]%Q) /\
  (exists h' out sorted,
     sortByPopularityScore {[ 1%positive := threeScored ]} 1%positive
       (Some asc) = Some (h', out) /\
     h' !! out = Some sorted /\
     map RepositoryWithScore.popularity_score sorted = [4; 5.5; 7.5]%Q).
Proof.
  intros Hitems. split; [| split].
  - do 3 eexists.
    split; [exact (sortByPopularityScore_run _ _ _ _ Hitems) |].
    split; [apply lookup_insert_eq |].
    split.
    + apply sort_scores_sorted.
    + intros v. apply sort_elements_filter.
      intros a b Ha Hb. apply compareScores_keeps.
      eapply hasScore_tie; eassumption.
  - do 3 eexists. split; [vm_compute; reflexivity |].
    split; [vm_compute; reflexivity | reflexivity].
  - do 3 eexists. split; [vm_compute; reflexivity |].
    split; [vm_compute; reflexivity | reflexivity].
Qed.

Lemma sortByPopularityScore_ordered_stable_witness :
  (exists h' out sorted,
     sortByPopularityScore {[ 1%positive := threeScored ]} 1%positive None
       = Some (h', out) /\
     h' !! out = Some sorted /\
     StronglySorted (inOrder (default desc None)) sorted /\
     (forall v : Q,
        List.filter (hasScore v) sorted
        = List.filter (hasScore v) threeScored)) /\
  (exists h' out sorted,
     sortByPopularityScore {[ 1%positive := threeScored ]} 1%positive
       (Some desc) = Some (h', out) /\
     h' !! out = Some sorted /\
     map RepositoryWithScore.popularity_score sorted = [7.5; 5.5; 4]%Q) /\
  (exists h' out sorted,
     sortByPopularityScore {[ 1%positive := threeScored ]} 1%positive
       (Some asc) = Some (h', out) /\
     h' !! out = Some sorted /\
     map RepositoryWithScore.popularity_score sorted = [4; 5.5; 7.5]%Q).
Proof.
  apply (sortByPopularityScore_ordered_stable
           {[ 1%positive := threeScored ]} 1%positive None threeScored).
  vm_compute. reflexivity.
Defined.

(** C9.  Sorting the array that a call has returned gives an array with
    the same sequence again, and a call leaves its argument as it was:
    the result is a new array, and every array of the store keeps its
    content. *)
Theorem sortByPopularityScore_idempotent_nonmutating
    (h : gmap loc (list RepositoryWithScore.t)) (repos : loc)
    (order : option SortOrder) (items : list RepositoryWithScore.t) :
  h !! repos = Some items ->
  exists h1 out1 h2 out2 sorted,
    sortByPopularityScore h repos order = Some (h1, out1) /\
    h1 !! out1 = Some sorted /\
    sortByPopularityScore h1 out1 order = Some (h2, out2) /\
    h2 !! out2 = Some sorted /\
    out1 <> repos /\
    h1 !! repos = Some items /\
    (forall l, is_Some (h !! l) -> h1 !! l = h !! l) /\
    out2 <> out1 /\
    h2 !! out1 = Some sorted /\
    (forall l, is_Some (h1 !! l) -> h2 !! l = h1 !! l).
Proof.
  intros Hitems.
  pose proof (sortByPopularityScore_run h repos order items Hitems) as Hrun1.
  set (out1 := fresh (dom h)) in *.
  set (sorted := sort_elements (compareScores (default desc order)) items) in *.
  set (h1 := <[out1 := sorted]> h) in *.
  assert (Hout1 : h1 !! out1 = Some sorted) by apply lookup_insert_eq.
  assert (Hrun2 : sortByPopularityScore h1 out1 order =
                  Some (<[fresh (dom h1) := sorted]> h1, fresh (dom h1))).
  { rewrite (sortByPopularityScore_run h1 out1 order sorted Hout1).
    unfold sorted. now rewrite sort_scores_idempotent. }
  assert (Hfresh1 : forall l, is_Some (h !! l) -> l <> out1)
    by (intros l Hl; now apply fresh_not_allocated).
  assert (Hfresh2 : forall l, is_Some (h1 !! l) -> l <> fresh (dom h1))
    by (intros l Hl; now apply fresh_not_allocated).
  exists h1, out1, (<[fresh (dom h1) := sorted]> h1), (fresh (dom h1)), sorted.
  split; [exact Hrun1 |].
  split; [exact Hout1 |].
  split; [exact Hrun2 |].
  split; [apply lookup_insert_eq |].
  split; [apply not_eq_sym, Hfresh1; now rewrite Hitems |].
  assert (Hkeep1 : forall l, is_Some (h !! l) -> h1 !! l = h !! l).
  { intros l Hl. apply lookup_insert_ne, not_eq_sym, Hfresh1, Hl. }
  split; [rewrite Hkeep1, Hitems; [reflexivity | now rewrite Hitems] |].
  split; [exact Hkeep1 |].
  assert (Hkeep2 : forall l, is_Some (h1 !! l) ->
            <[fresh (dom h1) := sorted]> h1 !! l = h1 !! l).
  { intros l Hl. apply lookup_insert_ne, not_eq_sym, Hfresh2, Hl. }
  split; [apply not_eq_sym, Hfresh2; now rewrite Hout1 |].
  split; [rewrite Hkeep2, Hout1; [reflexivity | now rewrite Hout1] |].
  exact Hkeep2.
Qed.

Lemma sortByPopularityScore_idempotent_nonmutating_witness :
  exists h1 out1 h2 out2 sorted,
    sortByPopularityScore {[ 1%positive := threeScored ]} 1%positive
      (Some asc) = Some (h1, out1) /\
    h1 !! out1 = Some sorted /\
    sortByPopularityScore h1 out1 (Some asc) = Some (h2, out2) /\
    h2 !! out2 = Some sorted /\
    out1 <> 1%positive /\
    h1 !! 1%positive = Some threeScored /\
    (forall l,
       is_Some (({[ 1%positive := threeScored ]}
                 : gmap loc (list RepositoryWithScore.t)) !! l) ->
       h1 !! l =
       ({[ 1%positive := threeScored ]}
        : gmap loc (list RepositoryWithScore.t)) !! l) /\
    out2 <> out1 /\
    h2 !! out1 = Some sorted /\
    (forall l, is_Some (h1 !! l) -> h2 !! l = h1 !! l).
Proof.
  apply (sortByPopularityScore_idempotent_nonmutating
           {[ 1%positive := threeScored ]} 1%positive (Some asc) threeScored).
  vm_compute. reflexivity.
Defined.

(** C10.  The array that the call returns holds a permutation of the
    records of its argument: the same records, as many of them. *)
Theorem sortByPopularityScore_permutation
    (h : gmap loc (list RepositoryWithScore.t)) (repos : loc)
    (order : option SortOrder) (items : list RepositoryWithScore.t) :
  h !! repos = Some items ->
  exists h' out sorted,
    sortByPopularityScore h repos order = Some (h', out) /\
    h' !! out = Some sorted /\
    sorted ≡ₚ items /\
    length sorted = length items /\
    (forall r, r ∈ sorted <-> r ∈ items).
Proof.
  intros Hitems. do 3 eexists.
  split; [exact (sortByPopularityScore_run _ _ _ _ Hitems) |].
  split; [apply lookup_insert_eq |].
  pose proof (sort_elements_perm (compareScores (default desc order)) items)
    as Hperm.
  split; [exact Hperm |].
  split; [now rewrite Hperm |].
  intros r. now rewrite Hperm.
Qed.

Lemma sortByPopularityScore_permutation_witness :
  exists h' out sorted,
    sortByPopularityScore {[ 1%positive := threeScored ]} 1%positive
      (Some desc) = Some (h', out) /\
    h' !! out = Some sorted /\
    sorted ≡ₚ threeScored /\
    length sorted = length threeScored /\
    (forall r, r ∈ sorted <-> r ∈ threeScored).
Proof.
  apply (sortByPopularityScore_permutation
           {[ 1%positive := threeScored ]} 1%positive (Some desc) threeScored).
  vm_compute. reflexivity.
Defined.

(* ===================================================================== *)
(** * The calendar *)
(* ===================================================================== *)

Section Calendar.
(** The year of a time value is the one the calendar asks for: the
    latest year that starts on or before its day. *)
Lemma YearFromTime_spec t :
  DayFromYear (YearFromTime t) <= Day t < DayFromYear (YearFromTime t + 1).
Proof.
  unfold YearFromTime.
  set (d := Day t). set (y := 1970 + d * 400 / 146097).
  assert (Hy : 146097 * (y - 1970) <= d * 400 < 146097 * (y - 1970) + 146097).
  { unfold y. pose proof (Z.div_mod (d * 400) 146097 ltac:(lia)).
    pose proof (Z.mod_pos_bound (d * 400) 146097 ltac:(lia)). lia. }
  clearbody y d.
  destruct (Z.ltb_spec d (DayFromYear y)).
  - unfold DayFromYear in *. replace (y - 1 + 1) with y by lia.
    Z.to_euclidean_division_equations; lia.
  - destruct (Z.leb_spec (DayFromYear (y + 1)) d); [| lia].
    unfold DayFromYear in *. Z.to_euclidean_division_equations; lia.
Qed.

Lemma DayFromYear_step y : DayFromYear (y + 1) = DayFromYear y + DaysInYear y.
Proof.
  unfold DayFromYear, DaysInYear.
  destruct (Z.eqb_spec (y mod 4) 0), (Z.eqb_spec (y mod 100) 0),
           (Z.eqb_spec (y mod 400) 0); cbn [negb];
    replace (y + 1 - 1970) with (y - 1970 + 1) by lia;
    replace (y + 1 - 1969) with (y - 1969 + 1) by lia;
    replace (y + 1 - 1901) with (y - 1901 + 1) by lia;
    replace (y + 1 - 1601) with (y - 1601 + 1) by lia;
    Z.to_euclidean_division_equations; lia.
Qed.

Lemma DayWithinYear_range t :
  0 <= DayWithinYear t < 365 + InLeapYear t.
Proof.
  unfold DayWithinYear, InLeapYear.
  pose proof (YearFromTime_spec t) as Hy.
  rewrite DayFromYear_step in Hy.
  assert (DaysInYear (YearFromTime t) = 365 \/ DaysInYear (YearFromTime t) = 366)
    as [Hd | Hd]
    by (unfold DaysInYear; repeat (destruct (negb _); [now auto |]); auto).
  - rewrite Hd in *. simpl. lia.
  - rewrite Hd in *. simpl. lia.
Qed.

Lemma InLeapYear_cases t : InLeapYear t = 0 \/ InLeapYear t = 1.
Proof. unfold InLeapYear. destruct (_ =? _); auto. Qed.

Lemma MonthFromTime_range t : 0 <= MonthFromTime t <= 11.
Proof.
  unfold MonthFromTime.
  repeat (destruct (_ <? _); [lia |]). lia.
Qed.

Lemma DateFromTime_range t : 1 <= DateFromTime t <= 31.
Proof.
  pose proof (DayWithinYear_range t) as Hd.
  unfold DateFromTime, MonthFromTime.
  destruct (InLeapYear_cases t) as [Hleap | Hleap];
    rewrite Hleap in *; cbv zeta;
    repeat match goal with
    | |- context [?a <? ?b] =>
        destruct (Z.ltb_spec a b); [cbv beta iota; lia |]
    end;
    cbv beta iota; lia.
Qed.

(** The years of the time values: six digits hold them. *)
Lemma YearFromTime_range t :
  - maxTimeValue <= t <= maxTimeValue ->
  -271821 <= YearFromTime t <= 275760.
Proof.
  intros Ht. pose proof (YearFromTime_spec t) as Hy.
  assert (Hd : -100000000 <= Day t <= 100000000).
  { unfold Day, msPerDay, maxTimeValue in *.
    Z.to_euclidean_division_equations; lia. }
  set (y := YearFromTime t) in *. clearbody y.
  unfold DayFromYear in Hy. Z.to_euclidean_division_equations; lia.
Qed.

(** So are the years of the dates that the host parses. *)
Lemma Date_parse_year_range `{JSDate} s t :
  Date_parse s = Some t -> -271821 <= YearFromTime t <= 275760.
Proof. intros Hs. eapply YearFromTime_range, Date_parse_range, Hs. Qed.
End Calendar.

(* ===================================================================== *)
(** * Properties of the query translation *)
(* ===================================================================== *)

Lemma sanitize_class_allowed (c : ascii) :
  class_matches
    {| negated := true;
       atoms := [ClassRange "a" "z"; ClassRange "A" "Z"; ClassRange "0" "9";
                 ClassWhiteSpace; ClassChar "-"; ClassChar "_";
                 ClassChar "+"; ClassChar "#"; ClassChar "."] |} c
  = negb (allowed c).
Proof.
  destruct c as [b0 b1 b2 b3 b4 b5 b6 b7].
  destruct b0, b1, b2, b3, b4, b5, b6, b7; vm_compute; reflexivity.
Qed.

Lemma sanitizeInput_keepAllowed input :
  sanitizeInput input = keepAllowed input.
Proof.
  unfold sanitizeInput.
  induction input as [| c s IH]; simpl; [reflexivity |].
  rewrite sanitize_class_allowed.
  destruct (allowed c); simpl; now rewrite IH.
Qed.

Lemma keepAllowed_occurs s c :
  occursIn c (keepAllowed s) = occursIn c s && allowed c.
Proof.
  induction s as [| a s IH]; simpl; [reflexivity |].
  destruct (Ascii.eqb_spec c a) as [-> | Hne].
  - destruct (allowed a) eqn:Ha; simpl.
    + now rewrite Ascii.eqb_refl.
    + now rewrite IH, andb_false_r.
  - destruct (allowed a); simpl; rewrite IH; [| reflexivity].
    now rewrite (proj2 (Ascii.eqb_neq c a) Hne).
Qed.

(** C7.  [sanitizeInput] returns, for every input, the input without the
    characters outside the allow-set (it has no way to fail): a character
    occurs in the result exactly when it occurs in the input and is
    allowed.  The language filter [type<script>!] gives the clause
    [language:typescript]. *)
Theorem sanitizeInput_strips_disallowed `{JSDate} :
  (forall input : string, sanitizeInput input = keepAllowed input) /\
  (forall (input : string) (c : ascii),
     occursIn c (sanitizeInput input) = occursIn c input && allowed c) /\
  sanitizeInput "type<script>!" = "typescript" /\
  buildQueryString (searchQuery (Some "type<script>!") None)
  = Return "language:typescript".
Proof.
  split; [exact sanitizeInput_keepAllowed |].
  split; [| split; reflexivity].
  intros input c. rewrite sanitizeInput_keepAllowed.
  apply keepAllowed_occurs.
Qed.

Section DatePart.
Lemma append_assoc (a b c : string) : (a +:+ b) +:+ c = a +:+ (b +:+ c).
Proof.
  induction a as [| x a IH]; [reflexivity |].
  change (String x ((a +:+ b) +:+ c) = String x (a +:+ (b +:+ c))).
  now f_equal.
Qed.

Lemma occursIn_append c (a b : string) :
  occursIn c (a +:+ b) = occursIn c a || occursIn c b.
Proof.
  induction a as [| x a IH]; simpl; [reflexivity |].
  now rewrite IH, orb_assoc.
Qed.

Lemma String_split_nonempty sep s : String_split sep s <> [].
Proof.
  destruct s as [| c s]; simpl; [easy |].
  destruct (Ascii.eqb c sep); [easy |].
  now destruct (String_split sep s).
Qed.

Lemma String_split_first sep (a rest : string) :
  occursIn sep a = false ->
  element0 (String_split sep (a +:+ String sep rest)) = a.
Proof.
  induction a as [| x a IH]; simpl.
  - intros _. now rewrite Ascii.eqb_refl.
  - intros [Hx Ha]%orb_false_elim.
    rewrite Ascii.eqb_sym, Hx. specialize (IH Ha).
    pose proof (String_split_nonempty sep (a +:+ String sep rest)).
    destruct (String_split sep (a +:+ String sep rest)); simpl in *;
      [easy | now rewrite IH].
Qed.

Lemma digit_isDigit d : 0 <= d < 10 -> isDigit (digit d) = true.
Proof.
  intros Hd.
  assert (Hcases : d = 0 \/ d = 1 \/ d = 2 \/ d = 3 \/ d = 4 \/
                   d = 5 \/ d = 6 \/ d = 7 \/ d = 8 \/ d = 9) by lia.
  repeat (destruct Hcases as [-> | Hcases]; [reflexivity |]).
  now subst d.
Qed.

Lemma isDigit_not_T c : isDigit c = true -> Ascii.eqb "T" c = false.
Proof.
  destruct c as [b0 b1 b2 b3 b4 b5 b6 b7].
  destruct b0, b1, b2, b3, b4, b5, b6, b7; vm_compute; congruence.
Qed.

Lemma digits_no_T width n : occursIn "T" (digits width n) = false.
Proof.
  revert n. induction width as [| w IH]; intros n; [reflexivity |].
  cbn [digits]. rewrite occursIn_append, IH. cbn [occursIn orb].
  rewrite isDigit_not_T; [reflexivity |].
  apply digit_isDigit, Z.mod_pos_bound. lia.
Qed.

Lemma isoYear_no_T y : occursIn "T" (isoYear y) = false.
Proof.
  unfold isoYear.
  destruct (_ && _); [apply digits_no_T |].
  destruct (y <? 0); rewrite occursIn_append, digits_no_T; reflexivity.
Qed.

Lemma Date_isoDate_no_T t : occursIn "T" (Date_isoDate t) = false.
Proof.
  unfold Date_isoDate.
  now rewrite !occursIn_append, isoYear_no_T, !digits_no_T.
Qed.

(** What [toISOString().split('T')[0]] gives is the UTC date. *)
Lemma formattedDate_isoDate t :
  element0 (String_split "T" (Date_toISOString t)) = Date_isoDate t.
Proof.
  rewrite <- (String_split_first "T" (Date_isoDate t)
    (digits 2 (HourFromTime t) +:+ ":" +:+
     digits 2 (MinFromTime t) +:+ ":" +:+
     digits 2 (SecFromTime t) +:+ "." +:+
     digits 3 (msFromTime t) +:+ "Z") (Date_isoDate_no_T t)).
  do 2 f_equal. unfold Date_toISOString, Date_isoDate.
  now rewrite !append_assoc.
Qed.

(** With a year of four digits the UTC date has the form
    [YYYY-MM-DD]. *)
Lemma Date_isoDate_YMD t :
  0 <= YearFromTime t <= 9999 -> isYMD (Date_isoDate t) = true.
Proof.
  intros Hy. unfold Date_isoDate, isoYear.
  replace ((0 <=? YearFromTime t) && (YearFromTime t <=? 9999)) with true
    by (symmetry; apply andb_true_iff; split; apply Z.leb_le; lia).
  cbv [digits String.append isYMD].
  rewrite !digit_isDigit by (apply Z.mod_pos_bound; lia).
  reflexivity.
Qed.

(** Otherwise the year has a sign and six digits, and the form is
    another one. *)
Lemma Date_isoDate_expanded t :
  ~ 0 <= YearFromTime t <= 9999 -> isYMD (Date_isoDate t) = false.
Proof.
  intros Hy. unfold Date_isoDate, isoYear.
  replace ((0 <=? YearFromTime t) && (YearFromTime t <=? 9999)) with false
    by (symmetry; apply andb_false_iff;
        destruct (Z.leb_spec 0 (YearFromTime t));
        [right; apply Z.leb_gt; lia | now left]).
  destruct (YearFromTime t <? 0); reflexivity.
Qed.
End DatePart.

(** C5.  For every request the query string is the clauses joined by a
    space, in a fixed order: the language clause when the language is
    set, then the date clause when the date is set, and the clause
    [stars:>0] alone when neither is; it is never empty, and without
    filters it is [stars:>0].  (The call throws when the date is set and
    has no time value.) *)
Theorem buildQueryString_clause_order `{JSDate} (query : SearchQuery.t) :
  let languageClause :=
    "language:" +:+ sanitizeInput (default "" (SearchQuery.language query)) in
  let createdClause t := "created:>=" +:+ Date_isoDate t in
  match truthy (SearchQuery.language query),
        truthy (SearchQuery.createdAfter query),
        Date_parse (default "" (SearchQuery.createdAfter query)) with
  | true, false, _ =>
      buildQueryString query = Return (Array_join " " [languageClause])
  | false, false, _ =>
      buildQueryString query = Return (Array_join " " ["stars:>0"])
  | true, true, Some t =>
      buildQueryString query =
      Return (Array_join " " [languageClause; createdClause t])
  | false, true, Some t =>
      buildQueryString query = Return (Array_join " " [createdClause t])
  | _, true, None =>
      exists error, buildQueryString query = Throw error
  end /\
  (forall queryString,
     buildQueryString query = Return queryString -> queryString <> "") /\
  buildQueryString (searchQuery None None) = Return "stars:>0".
Proof.
  unfold buildQueryString.
  destruct (truthy (SearchQuery.language query)),
           (truthy (SearchQuery.createdAfter query)),
           (Date_parse (default "" (SearchQuery.createdAfter query)));
    cbn -[sanitizeInput Date_isoDate Date_toISOString String_split];
    rewrite ?formattedDate_isoDate;
    (split; [first [reflexivity | eexists; reflexivity] |]);
    (split; [| reflexivity]);
    intros queryString Hq; inversion Hq; discriminate.
Qed.

(** C6 (counterexample).  The date [+010000-01-01] has a time value, and
    its clause is [created:>=+010000-01-01], which is not of the form
    [created:>=YYYY-MM-DD]. *)
Lemma buildQueryString_year_10000 :
  @Date_parse isoDate "+010000-01-01" = Some 253402300800000 /\
  @buildQueryString isoDate (searchQuery None (Some "+010000-01-01"))
  = Return "created:>=+010000-01-01" /\
  isYMD "+010000-01-01" = false.
Proof. repeat split; vm_compute; reflexivity. Qed.

(** C6 (amended).  When [createdAfter] is set (and so not empty): without
    a time value the call throws the validation error whose message names
    the expected format, and a search with this request ends with that
    error and leaves the world as it was, with no request sent upstream;
    with a time value the last clause is [created:>=] and the UTC date of
    that time value, which has the form [YYYY-MM-DD] exactly for the
    years 0 to 9999.  On the ISO host [2024-01-01] gives
    [created:>=2024-01-01] and [not-a-date] the error. *)
Theorem buildQueryString_createdAfter `{JSDate} `{Upstream}
    (query : SearchQuery.t) (createdAfter : string) :
  SearchQuery.createdAfter query = Some createdAfter ->
  createdAfter <> "" ->
  match Date_parse createdAfter with
  | None =>
      buildQueryString query = Throw (ValidationError invalidDateMessage None)
      /\ forall scoringService nows w,
           searchRepositories scoringService nows query w
           = Some (Throw (ValidationError invalidDateMessage None), w)
  | Some t =>
      (exists clauses,
         buildQueryString query =
         Return (Array_join " "
                   (clauses ++ ["created:>=" +:+ Date_isoDate t])%list))
      /\ (isYMD (Date_isoDate t) = true <-> 0 <= YearFromTime t <= 9999)
  end /\
  @buildQueryString isoDate (searchQuery None (Some "2024-01-01"))
  = Return "created:>=2024-01-01" /\
  @buildQueryString isoDate (searchQuery None (Some "not-a-date"))
  = Throw (ValidationError invalidDateMessage None).
Proof.
  intros Hset Hne.
  assert (Htruthy : truthy (SearchQuery.createdAfter query) = true).
  { rewrite Hset. simpl. now destruct (String.eqb_spec createdAfter ""). }
  split; [| split; vm_compute; reflexivity].
  assert (Hbuild : buildQueryString query =
    match Date_parse createdAfter with
    | None => Throw (ValidationError invalidDateMessage None)
    | Some t =>
        Return (Array_join " "
          ((if truthy (SearchQuery.language query)
            then ["language:" +:+
                  sanitizeInput (default "" (SearchQuery.language query))]
            else []) ++ ["created:>=" +:+ Date_isoDate t])%list)
    end).
  { unfold buildQueryString. rewrite Htruthy, Hset.
    change (default "" (Some createdAfter)) with createdAfter.
    destruct (Date_parse createdAfter) as [t |]; [| reflexivity].
    rewrite formattedDate_isoDate.
    now destruct (truthy (SearchQuery.language query)). }
  destruct (Date_parse createdAfter) as [t |].
  - split; [eexists; exact Hbuild |].
    split.
    + intros Hymd.
      destruct (Z_le_dec 0 (YearFromTime t)) as [Hlow |];
        [destruct (Z_le_dec (YearFromTime t) 9999) as [Hhigh |] |];
        [lia | |];
        rewrite Date_isoDate_expanded in Hymd by lia; discriminate.
    + apply Date_isoDate_YMD.
  - split; [exact Hbuild |].
    intros scoringService nows w. unfold searchRepositories.
    now rewrite Hbuild.
Qed.

Lemma buildQueryString_createdAfter_witness :
  match @Date_parse isoDate "not-a-date" with
  | None =>
      @buildQueryString isoDate (searchQuery (Some "rust") (Some "not-a-date"))
      = Throw (ValidationError invalidDateMessage None)
      /\ forall scoringService nows w,
           @searchRepositories isoDate unreachableUpstream scoringService nows
             (searchQuery (Some "rust") (Some "not-a-date")) w
           = Some (Throw (ValidationError invalidDateMessage None), w)
  | Some t =>
      (exists clauses,
         @buildQueryString isoDate
           (searchQuery (Some "rust") (Some "not-a-date")) =
         Return (Array_join " "
                   (clauses ++ ["created:>=" +:+ Date_isoDate t])%list))
      /\ (isYMD (Date_isoDate t) = true <-> 0 <= YearFromTime t <= 9999)
  end /\
  @buildQueryString isoDate (searchQuery None (Some "2024-01-01"))
  = Return "created:>=2024-01-01" /\
  @buildQueryString isoDate (searchQuery None (Some "not-a-date"))
  = Throw (ValidationError invalidDateMessage None).
Proof.
  apply (@buildQueryString_createdAfter isoDate unreachableUpstream
           (searchQuery (Some "rust") (Some "not-a-date")) "not-a-date").
  - reflexivity.
  - discriminate.
Defined.

(** A request that passes the translation does reach the upstream: the
    world holds it afterwards, whatever the upstream answers. *)
Lemma searchRepositories_sends_request :
  @searchRepositories isoDate unreachableUpstream scoringService
    (fun _ => 1704067200000) (searchQuery (Some "rust") (Some "2024-01-01"))
    emptyWorld
  = Some (Throw (GitHubAPIError
            "Unable to reach GitHub API. Please check your network connection."
            503 None),
          {| store := ∅;
             requests :=
               [("/search/repositories",
                 SearchParams.mk "language:rust created:>=2024-01-01"
                   None desc 30 1)] |}).
Proof. vm_compute. reflexivity. Qed.

(* ===================================================================== *)
(** * Further properties of the scoring *)
(* ===================================================================== *)

(** The range of the score at the fixture of the tests. *)
Lemma calculatePopularityScore_range_witness :
  exists v,
    @calculatePopularityScore isoDate scoringService 1704067200000
      (createMockRepo 1000 100 "2023-01-01T00:00:00Z") = Some v /\
    (0 <= v)%Q /\ (v <= 10)%Q /\
    exists k : Z, (v * 100 == inject_Z k)%Q.
Proof.
  apply (@calculatePopularityScore_range isoDate scoringService
           1704067200000 (createMockRepo 1000 100 "2023-01-01T00:00:00Z")
           1672531200000).
  - simpl. lra.
  - simpl. lra.
  - simpl. lra.
  - simpl. lra.
  - simpl. lra.
  - vm_compute. reflexivity.
  - lia.
Defined.

Section LogTermShape.
Local Open Scope R_scope.

Lemma log10_lt x y : 0 < x -> x < y -> Math_log10 x < Math_log10 y.
Proof.
  intros Hx Hxy. unfold Math_log10.
  assert (0 < ln 10) by (rewrite <- ln_1; apply ln_increasing; lra).
  apply Rmult_lt_compat_r; [now apply Rinv_0_lt_compat |].
  now apply ln_increasing.
Qed.

(** Below the ceiling the term is the quotient of the logarithms, and
    less than 1. *)
Lemma normalizeLog_below count (ceiling : Z) :
  (0 < count < ceiling)%Z ->
  normalizeLog count (IZR ceiling)
  = Math_log10 (IZR count + 1) / Math_log10 (IZR ceiling + 1) /\
  0 < normalizeLog count (IZR ceiling) < 1.
Proof.
  intros [H0 Hc]. unfold normalizeLog.
  destruct (Z.leb_spec count 0) as [Hle | _]; [lia |].
  apply IZR_lt in H0, Hc.
  assert (Hnum : 0 < Math_log10 (IZR count + 1)) by (apply log10_pos; lra).
  assert (Hden : 0 < Math_log10 (IZR ceiling + 1)) by (apply log10_pos; lra).
  assert (Hlt : Math_log10 (IZR count + 1) < Math_log10 (IZR ceiling + 1))
    by (apply log10_lt; lra).
  assert (Hq : Math_log10 (IZR count + 1) / Math_log10 (IZR ceiling + 1) < 1).
  { apply (Rmult_lt_reg_r (Math_log10 (IZR ceiling + 1))); [easy |].
    unfold Rdiv. rewrite Rmult_assoc, Rinv_l by lra. lra. }
  rewrite Rmin_right by lra.
  split; [reflexivity |]. split; [now apply Rdiv_lt_0_compat | exact Hq].
Qed.

Lemma normalizeLog_nonpos count ceiling :
  (count <= 0)%Z -> normalizeLog count ceiling = 0.
Proof.
  intros Hle. unfold normalizeLog.
  destruct (Z.leb_spec count 0); [reflexivity | lia].
Qed.

Lemma normalizeLog_shape (ceiling : Z) :
  (0 < ceiling)%Z ->
  (forall count, 0 <= normalizeLog count (IZR ceiling) <= 1) /\
  (forall count, normalizeLog count (IZR ceiling) = 0 <-> (count <= 0)%Z) /\
  (forall count, normalizeLog count (IZR ceiling) = 1 <-> (ceiling <= count)%Z) /\
  (forall c1 c2, (0 <= c1)%Z -> (c1 < c2)%Z -> (c2 <= ceiling)%Z ->
     normalizeLog c1 (IZR ceiling) < normalizeLog c2 (IZR ceiling)).
Proof.
  intros Hc. assert (HcR : 0 < IZR ceiling) by now apply IZR_lt.
  assert (Hat : forall count, (ceiling <= count)%Z ->
            normalizeLog count (IZR ceiling) = 1).
  { intros count Hle. apply normalizeLog_ceiling; [easy | now apply IZR_le]. }
  split; [intros count; now apply normalizeLog_range |].
  split; [| split].
  - intros count. split; [| apply normalizeLog_nonpos].
    intros H0. destruct (Z_le_gt_dec count 0) as [Hle | Hgt]; [easy |].
    destruct (Z_lt_le_dec count ceiling) as [Hlt | Hge].
    + pose proof (normalizeLog_below count ceiling ltac:(lia)). lra.
    + rewrite Hat in H0 by easy. lra.
  - intros count. split; [| apply Hat].
    intros H1. destruct (Z_lt_le_dec count ceiling) as [Hlt | Hge]; [| easy].
    destruct (Z_le_gt_dec count 0) as [Hle | Hgt].
    + rewrite normalizeLog_nonpos in H1 by easy. lra.
    + pose proof (normalizeLog_below count ceiling ltac:(lia)). lra.
  - intros c1 c2 H0 H12 H2.
    assert (Hc2 : 0 < normalizeLog c2 (IZR ceiling) /\
                  (c2 < ceiling)%Z \/ normalizeLog c2 (IZR ceiling) = 1).
    { destruct (Z_lt_le_dec c2 ceiling) as [Hlt | Hge].
      - left. split; [| easy].
        now apply (normalizeLog_below c2 ceiling ltac:(lia)).
      - right. now apply Hat. }
    destruct (Z.eq_dec c1 0%Z) as [-> | Hne].
    + rewrite (normalizeLog_nonpos 0%Z) by lia.
      destruct Hc2 as [[Hpos _] | ->]; lra.
    + pose proof (normalizeLog_below c1 ceiling ltac:(lia)) as [Heq1 Hr1].
      destruct Hc2 as [[_ Hlt] | ->]; [| lra].
      pose proof (normalizeLog_below c2 ceiling ltac:(lia)) as [Heq2 _].
      rewrite Heq1, Heq2.
      assert (0 < Math_log10 (IZR ceiling + 1)) by (apply log10_pos; lra).
      apply Rmult_lt_compat_r; [now apply Rinv_0_lt_compat |].
      apply log10_lt; [apply IZR_le in H0; lra |].
      apply IZR_lt in H12. lra.
Qed.
End LogTermShape.

(** X2.  The star term lies in [0, 1]; it is 0 exactly for a count of 0
    or less, 1 exactly from 100000 stars on, and strictly increasing in
    between.  The fork term does the same with 10000. *)
Theorem normalize_terms_shape :
  ((forall stars, 0 <= normalizeStars stars <= 1)%R /\
   (forall stars, normalizeStars stars = 0%R <-> stars <= 0) /\
   (forall stars, normalizeStars stars = 1%R <-> 100000 <= stars) /\
   (forall s1 s2, 0 <= s1 -> s1 < s2 -> s2 <= 100000 ->
      (normalizeStars s1 < normalizeStars s2)%R)) /\
  ((forall forks, 0 <= normalizeForks forks <= 1)%R /\
   (forall forks, normalizeForks forks = 0%R <-> forks <= 0) /\
   (forall forks, normalizeForks forks = 1%R <-> 10000 <= forks) /\
   (forall f1 f2, 0 <= f1 -> f1 < f2 -> f2 <= 10000 ->
      (normalizeForks f1 < normalizeForks f2)%R)).
Proof.
  split.
  - pose proof (normalizeLog_shape 100000 ltac:(lia)) as (H1 & H2 & H3 & H4).
    split; [intros s; rewrite normalizeStars_spec; apply H1 |].
    split; [intros s; rewrite normalizeStars_spec; apply H2 |].
    split; [intros s; rewrite normalizeStars_spec; apply H3 |].
    intros s1 s2 ? ? ?. rewrite !normalizeStars_spec. now apply H4.
  - pose proof (normalizeLog_shape 10000 ltac:(lia)) as (H1 & H2 & H3 & H4).
    split; [intros f; rewrite normalizeForks_spec; apply H1 |].
    split; [intros f; rewrite normalizeForks_spec; apply H2 |].
    split; [intros f; rewrite normalizeForks_spec; apply H3 |].
    intros f1 f2 ? ? ?. rewrite !normalizeForks_spec. now apply H4.
Qed.

(** X3.  The counts are clamped: a count of 0 or less scores like 0, a
    star count of 100000 or more like 100000, a fork count of 10000 or
    more like 10000, whatever the rest of the record and [now]. *)
Theorem calculatePopularityScore_clamped `{JSDate}
    (this : ScoringService) (now : Z) (repo : GitHubRepository.t) (c : Z) :
  (c <= 0 ->
   calculatePopularityScore this now
     (GitHubRepository.with_stargazers_count c repo)
   = calculatePopularityScore this now
       (GitHubRepository.with_stargazers_count 0 repo)) /\
  (c <= 0 ->
   calculatePopularityScore this now
     (GitHubRepository.with_forks_count c repo)
   = calculatePopularityScore this now
       (GitHubRepository.with_forks_count 0 repo)) /\
  (100000 <= c ->
   calculatePopularityScore this now
     (GitHubRepository.with_stargazers_count c repo)
   = calculatePopularityScore this now
       (GitHubRepository.with_stargazers_count 100000 repo)) /\
  (10000 <= c ->
   calculatePopularityScore this now
     (GitHubRepository.with_forks_count c repo)
   = calculatePopularityScore this now
       (GitHubRepository.with_forks_count 10000 repo)).
Proof.
  rewrite !calculatePopularityScore_rounded. cbn.
  repeat split; intros Hc; unfold roundedScore;
    rewrite !normalizeStars_spec, !normalizeForks_spec.
  - now rewrite (normalizeLog_nonpos c), (normalizeLog_nonpos 0) by lia.
  - now rewrite (normalizeLog_nonpos c), (normalizeLog_nonpos 0) by lia.
  - now rewrite (normalizeLog_ceiling c 100000),
                (normalizeLog_ceiling 100000 100000)
      by (try apply IZR_le; try lra; lia).
  - now rewrite (normalizeLog_ceiling c 10000),
                (normalizeLog_ceiling 10000 10000)
      by (try apply IZR_le; try lra; lia).
Qed.

Section RecencyShape.
Local Open Scope R_scope.

Lemma exp_le_1_iff x : exp x <= 1 <-> x <= 0.
Proof.
  rewrite <- exp_0 at 1. split.
  - intros Hle. destruct (Rle_lt_dec x 0) as [| Hlt]; [easy |].
    apply exp_increasing in Hlt. lra.
  - intros [Hlt | ->]; [left; now apply exp_increasing | lra].
Qed.

Lemma exp_eq_1_iff x : exp x = 1 <-> x = 0.
Proof.
  split; [| intros ->; apply exp_0].
  intros H1. rewrite <- exp_0 in H1. now apply exp_inv in H1.
Qed.

Lemma daysSince_sign t now h :
  0 < h ->
  (- (daysSince t now / h) <= 0 <-> (t <= now)%Z) /\
  (- (daysSince t now / h) = 0 <-> t = now).
Proof.
  intros Hh. unfold daysSince.
  assert (Hk : 0 < / 86400000 * / h)
    by (apply Rmult_lt_0_compat; apply Rinv_0_lt_compat; lra).
  replace (- (IZR (now - t) / 86400000 / h))
    with (- IZR (now - t) * (/ 86400000 * / h)) by (unfold Rdiv; ring).
  split; split.
  - intros Hle. assert (0 <= IZR (now - t)) by nra.
    apply le_IZR in H. lia.
  - intros Hle. assert (0 <= IZR (now - t)) by (apply IZR_le; lia). nra.
  - intros Heq. assert (IZR (now - t) = 0) by nra.
    apply eq_IZR in H. lia.
  - intros ->. rewrite Z.sub_diag. lra.
Qed.
End RecencyShape.

(** X4.  The recency term of an update with a time value is positive; it
    is at most 1 exactly when the update is not after [now], and 1
    exactly when the update is at [now]: an update in the future gives a
    term above 1. *)
Theorem calculateRecencyScore_shape `{JSDate}
    (this : ScoringService) (now : Z) (updatedAt : string) (t : Z) :
  (0 < recencyDecayDays this)%R ->
  Date_parse updatedAt = Some t ->
  exists r : R,
    calculateRecencyScore this now updatedAt = Some r /\
    (0 < r)%R /\
    ((r <= 1)%R <-> t <= now) /\
    (r = 1%R <-> t = now) /\
    ((1 < r)%R <-> now < t).
Proof.
  intros Hd Ht. rewrite calculateRecencyScore_spec, Ht.
  eexists; split; [reflexivity |].
  rewrite exponentialDecay_exp.
  pose proof (daysSince_sign t now _ Hd) as [Hle Heq].
  split; [apply exp_pos |].
  split; [now rewrite exp_le_1_iff |].
  split; [now rewrite exp_eq_1_iff |].
  split.
  - intros Hlt. destruct (Z_lt_le_dec now t) as [| Hge]; [easy |].
    apply Hle, exp_le_1_iff in Hge. lra.
  - intros Hlt. apply Rnot_le_lt. intros Hr%exp_le_1_iff%Hle. lia.
Qed.

Lemma calculateRecencyScore_shape_witness :
  exists r : R,
    @calculateRecencyScore isoDate scoringService 1704067200000
      "2023-01-01T00:00:00Z" = Some r /\
    (0 < r)%R /\
    ((r <= 1)%R <-> 1672531200000 <= 1704067200000) /\
    (r = 1%R <-> 1672531200000 = 1704067200000) /\
    ((1 < r)%R <-> 1704067200000 < 1672531200000).
Proof.
  apply (@calculateRecencyScore_shape isoDate scoringService 1704067200000
           "2023-01-01T00:00:00Z" 1672531200000).
  - simpl. lra.
  - vm_compute. reflexivity.
Defined.

(** X5.  A score decays: the same record scored at a later instant gets a
    score that is lower or equal. *)
Theorem calculatePopularityScore_decays `{JSDate}
    (this : ScoringService) (now1 now2 : Z) (repo : GitHubRepository.t)
    (t : Z) :
  (0 <= ScoringWeights.recency (weights this))%R ->
  (0 < recencyDecayDays this)%R ->
  Date_parse (GitHubRepository.updated_at repo) = Some t ->
  now1 <= now2 ->
  exists v1 v2 : Q,
    calculatePopularityScore this now1 repo = Some v1 /\
    calculatePopularityScore this now2 repo = Some v2 /\
    (v2 <= v1)%Q.
Proof.
  intros Hw Hd Ht Hnow.
  rewrite !(calculatePopularityScore_Some _ _ _ _ Ht).
  do 2 eexists. repeat (split; [reflexivity |]).
  apply hundredths_le, Math_round_le.
  assert (Hr : (exponentialDecay (daysSince t now2) (recencyDecayDays this)
                <= exponentialDecay (daysSince t now1) (recencyDecayDays this))%R).
  { destruct (Z.eq_dec now1 now2) as [-> | Hne]; [lra |].
    left. apply exponentialDecay_decreasing; [easy |].
    unfold daysSince. apply Rmult_lt_compat_r; [lra |].
    apply IZR_lt. lia. }
  nra.
Qed.

Lemma calculatePopularityScore_decays_witness :
  exists v1 v2 : Q,
    @calculatePopularityScore isoDate scoringService 1672531200000
      (createMockRepo 1000 100 "2023-01-01T00:00:00Z") = Some v1 /\
    @calculatePopularityScore isoDate scoringService 1704067200000
      (createMockRepo 1000 100 "2023-01-01T00:00:00Z") = Some v2 /\
    (v2 <= v1)%Q.
Proof.
  apply (@calculatePopularityScore_decays isoDate scoringService
           1672531200000 1704067200000
           (createMockRepo 1000 100 "2023-01-01T00:00:00Z") 1672531200000).
  - simpl. lra.
  - simpl. lra.
  - vm_compute. reflexivity.
  - lia.
Defined.

Section ExpBounds.
Local Open Scope R_scope.

Lemma exp_double x : exp (2 * x) = exp x * exp x.
Proof. replace (2 * x) with (x + x) by ring. apply exp_plus. Qed.

Lemma exp_double_lower x a b :
  a <= exp x -> 0 <= a -> b <= a * a -> b <= exp (2 * x).
Proof. intros Ha H0 Hb. rewrite exp_double. nra. Qed.

(** [e] to the minus one lies between 0.36 and 0.37. *)
Lemma exp_minus_1_bounds : 0.3631 <= exp (- 1) <= 0.3696.
Proof.
  split.
  - pose proof (exp_ineq1_le (- / 64)) as H0.
    assert (H1 : 0.9689 <= exp (2 * - / 64))
      by (eapply exp_double_lower; [exact H0 | lra | lra]).
    assert (H2 : 0.9387 <= exp (2 * (2 * - / 64)))
      by (eapply exp_double_lower; [exact H1 | lra | lra]).
    assert (H3 : 0.8811 <= exp (2 * (2 * (2 * - / 64))))
      by (eapply exp_double_lower; [exact H2 | lra | lra]).
    assert (H4 : 0.7763 <= exp (2 * (2 * (2 * (2 * - / 64)))))
      by (eapply exp_double_lower; [exact H3 | lra | lra]).
    assert (H5 : 0.6026 <= exp (2 * (2 * (2 * (2 * (2 * - / 64))))))
      by (eapply exp_double_lower; [exact H4 | lra | lra]).
    assert (H6 : 0.3631 <= exp (2 * (2 * (2 * (2 * (2 * (2 * - / 64)))))))
      by (eapply exp_double_lower; [exact H5 | lra | lra]).
    replace (2 * (2 * (2 * (2 * (2 * (2 * - / 64)))))) with (- 1) in H6
      by lra.
    lra.
  - pose proof (exp_ineq1_le (/ 128)) as H0.
    assert (H1 : 1.01568 <= exp (2 * / 128))
      by (eapply exp_double_lower; [exact H0 | lra | lra]).
    assert (H2 : 1.0316 <= exp (2 * (2 * / 128)))
      by (eapply exp_double_lower; [exact H1 | lra | lra]).
    assert (H3 : 1.06419 <= exp (2 * (2 * (2 * / 128))))
      by (eapply exp_double_lower; [exact H2 | lra | lra]).
    assert (H4 : 1.1325 <= exp (2 * (2 * (2 * (2 * / 128)))))
      by (eapply exp_double_lower; [exact H3 | lra | lra]).
    assert (H5 : 1.28255 <= exp (2 * (2 * (2 * (2 * (2 * / 128))))))
      by (eapply exp_double_lower; [exact H4 | lra | lra]).
    assert (H6 : 1.64493 <= exp (2 * (2 * (2 * (2 * (2 * (2 * / 128)))))))
      by (eapply exp_double_lower; [exact H5 | lra | lra]).
    assert (H7 : 2.7057 <=
                 exp (2 * (2 * (2 * (2 * (2 * (2 * (2 * / 128))))))))
      by (eapply exp_double_lower; [exact H6 | lra | lra]).
    replace (2 * (2 * (2 * (2 * (2 * (2 * (2 * / 128))))))) with 1 in H7
      by lra.
    assert (He : exp (- 1) * exp 1 = 1)
      by (rewrite <- exp_plus; replace (- 1 + 1) with 0 by ring;
          apply exp_0).
    pose proof (exp_pos (- 1)). nra.
Qed.

Lemma exp_minus_2_bounds : 0.13 < exp (- 2) < 0.14.
Proof.
  pose proof exp_minus_1_bounds as [Hlow Hup].
  replace (- 2) with (2 * - 1) by ring. rewrite exp_double.
  split; nra.
Qed.
End ExpBounds.

Lemma calculateRecencyScore_whole_days `{JSDate}
    (updatedAt : string) (t days : Z) :
  Date_parse updatedAt = Some t ->
  calculateRecencyScore scoringService (t + days * 86400000) updatedAt
  = Some (exp (- IZR days / 365)).
Proof.
  intros Ht. rewrite calculateRecencyScore_spec, Ht. simpl. f_equal.
  rewrite exponentialDecay_exp. f_equal. unfold daysSince.
  replace (t + days * 86400000 - t) with (days * 86400000) by lia.
  rewrite mult_IZR. field.
Qed.

(** X6.  The table of the method's comment, for the exported service: an
    update [days] whole days before [now] has the recency term
    [e^(-days/365)]; this is 1 for an update at [now], about 0.37 after
    365 days and about 0.14 after 730 days. *)
Theorem calculateRecencyScore_table `{JSDate} (updatedAt : string) (t : Z) :
  Date_parse updatedAt = Some t ->
  (forall days : Z,
     calculateRecencyScore scoringService (t + days * 86400000) updatedAt
     = Some (exp (- IZR days / 365))) /\
  calculateRecencyScore scoringService t updatedAt = Some 1%R /\
  (exists r : R,
     calculateRecencyScore scoringService (t + 365 * 86400000) updatedAt
     = Some r /\ (0.36 < r < 0.37)%R) /\
  (exists r : R,
     calculateRecencyScore scoringService (t + 730 * 86400000) updatedAt
     = Some r /\ (0.13 < r < 0.14)%R).
Proof.
  intros Ht.
  pose proof (fun days => calculateRecencyScore_whole_days updatedAt t days Ht)
    as Hdays.
  split; [exact Hdays |].
  split; [| split].
  - specialize (Hdays 0). rewrite Z.mul_0_l, Z.add_0_r in Hdays.
    rewrite Hdays. f_equal.
    rewrite <- exp_0. f_equal. lra.
  - eexists. split; [apply Hdays |].
    assert (Heq : exp (- IZR 365 / 365) = exp (- 1)) by (f_equal; lra).
    rewrite Heq.
    pose proof exp_minus_1_bounds as [Hlow Hup]. split; lra.
  - eexists. split; [apply Hdays |].
    assert (Heq : exp (- IZR 730 / 365) = exp (- 2)) by (f_equal; lra).
    rewrite Heq. apply exp_minus_2_bounds.
Qed.

Lemma calculateRecencyScore_table_witness :
  (forall days : Z,
     @calculateRecencyScore isoDate scoringService
       (1672531200000 + days * 86400000) "2023-01-01T00:00:00Z"
     = Some (exp (- IZR days / 365))) /\
  @calculateRecencyScore isoDate scoringService 1672531200000
    "2023-01-01T00:00:00Z" = Some 1%R /\
  (exists r : R,
     @calculateRecencyScore isoDate scoringService
       (1672531200000 + 365 * 86400000) "2023-01-01T00:00:00Z"
     = Some r /\ (0.36 < r < 0.37)%R) /\
  (exists r : R,
     @calculateRecencyScore isoDate scoringService
       (1672531200000 + 730 * 86400000) "2023-01-01T00:00:00Z"
     = Some r /\ (0.13 < r < 0.14)%R).
Proof.
  apply (@calculateRecencyScore_table isoDate "2023-01-01T00:00:00Z"
           1672531200000).
  vm_compute. reflexivity.
Defined.

(** X7.  The decay has no memory: when [delta] more milliseconds have
    passed, the recency term is the earlier one times the decay factor of
    [delta] alone. *)
Theorem calculateRecencyScore_later `{JSDate}
    (this : ScoringService) (now delta : Z) (updatedAt : string) (r : R) :
  (0 < recencyDecayDays this)%R ->
  calculateRecencyScore this now updatedAt = Some r ->
  calculateRecencyScore this (now + delta) updatedAt
  = Some (r * exp (- (IZR delta / 86400000) / recencyDecayDays this))%R.
Proof.
  intros Hd. rewrite !calculateRecencyScore_spec.
  destruct (Date_parse updatedAt) as [t |]; [| discriminate].
  simpl. intros [= <-]. f_equal.
  rewrite !exponentialDecay_exp, <- exp_plus. f_equal.
  unfold daysSince.
  replace (now + delta - t) with ((now - t) + delta) by lia.
  rewrite plus_IZR. field. lra.
Qed.

Lemma calculateRecencyScore_later_witness :
  @calculateRecencyScore isoDate scoringService
    (1672531200000 + 0 * 86400000 + 86400000) "2023-01-01T00:00:00Z"
  = Some (exp (- IZR 0 / 365)
          * exp (- (IZR 86400000 / 86400000)
                 / recencyDecayDays scoringService))%R.
Proof.
  apply (@calculateRecencyScore_later isoDate scoringService
           (1672531200000 + 0 * 86400000)
           86400000 "2023-01-01T00:00:00Z" (exp (- IZR 0 / 365))).
  - simpl. lra.
  - apply (@calculateRecencyScore_whole_days isoDate "2023-01-01T00:00:00Z"
             1672531200000 0).
    vm_compute. reflexivity.
Defined.

(** X8.  A record without stars and forks that is scored at the instant
    of its update gets the recency weight alone: for a weight between 0
    and 1 the score is a number of hundredths between 0 and 10 that is
    less than one hundredth away from ten times the weight, and it is 3
    for the default weight 0.3. *)
Theorem calculatePopularityScore_fresh_empty `{JSDate}
    (this : ScoringService) (now : Z) (repo : GitHubRepository.t) :
  (0 < recencyDecayDays this)%R ->
  (0 <= ScoringWeights.recency (weights this) <= 1)%R ->
  GitHubRepository.stargazers_count repo <= 0 ->
  GitHubRepository.forks_count repo <= 0 ->
  Date_parse (GitHubRepository.updated_at repo) = Some now ->
  exists (v : Q) (k : Z),
    calculatePopularityScore this now repo = Some v /\
    v = (inject_Z k / 100)%Q /\
    (1000 * ScoringWeights.recency (weights this) - 1 < IZR k
     < 1000 * ScoringWeights.recency (weights this) + 1)%R /\
    0 <= k <= 1000 /\
    (ScoringWeights.recency (weights this) = (3 / 10)%R -> k = 300).
Proof.
  intros Hd Hw Hs Hf Ht.
  rewrite (calculatePopularityScore_Some _ _ _ _ Ht).
  exists (roundedScore this (GitHubRepository.stargazers_count repo)
            (GitHubRepository.forks_count repo)
            (exponentialDecay (daysSince now now) (recencyDecayDays this))),
         (Math_round (1000 * ScoringWeights.recency (weights this))%R).
  split; [reflexivity |].
  split.
  { unfold roundedScore. do 3 f_equal.
    rewrite normalizeStars_spec, normalizeForks_spec.
    rewrite !normalizeLog_nonpos by easy.
    rewrite exponentialDecay_exp. unfold daysSince.
    rewrite Z.sub_diag.
    replace (- (0 / 86400000 / recencyDecayDays this))%R with 0%R
      by (unfold Rdiv; ring).
    rewrite exp_0. ring. }
  split; [| split].
  - unfold Math_round.
    pose proof (Zfloor_bound
                  (1000 * ScoringWeights.recency (weights this) + / 2))
      as [Hlow Hup].
    lra.
  - split; [apply Math_round_lower | apply Math_round_upper]; lra.
  - intros ->. replace (1000 * (3 / 10))%R with (IZR 300) by lra.
    apply Math_round_IZR.
Qed.

Lemma calculatePopularityScore_fresh_empty_witness :
  exists (v : Q) (k : Z),
    @calculatePopularityScore isoDate scoringService 1672531200000
      (createMockRepo 0 0 "2023-01-01T00:00:00Z") = Some v /\
    v = (inject_Z k / 100)%Q /\
    (1000 * ScoringWeights.recency (weights scoringService) - 1 < IZR k
     < 1000 * ScoringWeights.recency (weights scoringService) + 1)%R /\
    0 <= k <= 1000 /\
    (ScoringWeights.recency (weights scoringService) = (3 / 10)%R ->
     k = 300).
Proof.
  apply (@calculatePopularityScore_fresh_empty isoDate scoringService
           1672531200000 (createMockRepo 0 0 "2023-01-01T00:00:00Z")).
  - simpl. lra.
  - simpl. lra.
  - simpl. lia.
  - simpl. lia.
  - vm_compute. reflexivity.
Defined.

(* ===================================================================== *)
(** * Further properties of the transformation *)
(* ===================================================================== *)

(** What [transformRepository] copies and what it narrows. *)
Lemma transformRepository_fields `{JSDate} this now repo r :
  transformRepository this now repo = Some r ->
  calculatePopularityScore this now repo
  = Some (RepositoryWithScore.popularity_score r) /\
  RepositoryWithScore.id r = GitHubRepository.id repo /\
  RepositoryWithScore.name r = GitHubRepository.name repo /\
  RepositoryWithScore.full_name r = GitHubRepository.full_name repo /\
  RepositoryWithScore.description r = GitHubRepository.description repo /\
  RepositoryWithScore.html_url r = GitHubRepository.html_url repo /\
  RepositoryWithScore.language r = GitHubRepository.language repo /\
  RepositoryWithScore.created_at r = GitHubRepository.created_at repo /\
  RepositoryWithScore.updated_at r = GitHubRepository.updated_at repo /\
  RepositoryWithScore.stars r = GitHubRepository.stargazers_count repo /\
  RepositoryWithScore.forks r = GitHubRepository.forks_count repo /\
  RepositoryWithScore.open_issues r
  = GitHubRepository.open_issues_count repo /\
  RepositoryWithScore.topics r = GitHubRepository.topics repo /\
  ScoredOwner.login (RepositoryWithScore.owner r)
  = GitHubOwner.login (GitHubRepository.owner repo) /\
  ScoredOwner.avatar_url (RepositoryWithScore.owner r)
  = GitHubOwner.avatar_url (GitHubRepository.owner repo) /\
  ScoredOwner.type (RepositoryWithScore.owner r)
  = GitHubOwner.type (GitHubRepository.owner repo) /\
  RepositoryWithScore.license r
  = (fun l => ScoredLicense.mk (GitHubLicense.name l)
                               (GitHubLicense.spdx_id l))
    <$> GitHubRepository.license repo.
Proof.
  unfold transformRepository.
  destruct (calculatePopularityScore this now repo) as [v |];
    [| discriminate].
  simpl. intros [= <-]. simpl.
  repeat split.
Qed.

(** X9.  [transformRepositories] works record by record and keeps the
    upstream order: the result has the length of the input, and the
    record at each index is the input record at that index with its
    display fields copied, its owner and licence narrowed, and the score
    computed at the clock read for that index. *)
Theorem transformRepositories_elementwise `{JSDate}
    (this : ScoringService) (nows : nat -> Z)
    (repos : list GitHubRepository.t)
    (scored : list RepositoryWithScore.t) :
  transformRepositories this nows repos = Some scored ->
  length scored = length repos /\
  forall (i : nat) (repo : GitHubRepository.t),
    repos !! i = Some repo ->
    exists r : RepositoryWithScore.t,
      scored !! i = Some r /\
      transformRepository this (nows i) repo = Some r /\
      calculatePopularityScore this (nows i) repo
      = Some (RepositoryWithScore.popularity_score r) /\
      RepositoryWithScore.id r = GitHubRepository.id repo /\
      RepositoryWithScore.full_name r = GitHubRepository.full_name repo /\
      RepositoryWithScore.updated_at r = GitHubRepository.updated_at repo /\
      RepositoryWithScore.stars r = GitHubRepository.stargazers_count repo /\
      RepositoryWithScore.forks r = GitHubRepository.forks_count repo /\
      RepositoryWithScore.open_issues r
      = GitHubRepository.open_issues_count repo.
Proof.
  unfold transformRepositories. intros Hm%mapM_Some.
  split.
  - apply Forall2_length in Hm. now rewrite length_imap in Hm.
  - intros i repo Hi.
    assert (Hpair : imap pair repos !! i = Some (i, repo))
      by now rewrite list_lookup_imap, Hi.
    destruct (Forall2_lookup_l _ _ _ _ _ Hm Hpair) as (r & Hr & Ht).
    exists r. split; [exact Hr |]. split; [exact Ht |].
    apply transformRepository_fields in Ht. tauto.
Qed.

Lemma transformRepositories_elementwise_witness :
  exists scored : list RepositoryWithScore.t,
    @transformRepositories isoDate scoringService (fun _ => 1672531200000)
      [createMockRepo 0 0 "2023-01-01T00:00:00Z"] = Some scored /\
    length scored = length [createMockRepo 0 0 "2023-01-01T00:00:00Z"] /\
    forall (i : nat) (repo : GitHubRepository.t),
      [createMockRepo 0 0 "2023-01-01T00:00:00Z"] !! i = Some repo ->
      exists r : RepositoryWithScore.t,
        scored !! i = Some r /\
        @transformRepository isoDate scoringService 1672531200000 repo
        = Some r /\
        @calculatePopularityScore isoDate scoringService 1672531200000 repo
        = Some (RepositoryWithScore.popularity_score r) /\
        RepositoryWithScore.id r = GitHubRepository.id repo /\
        RepositoryWithScore.full_name r = GitHubRepository.full_name repo /\
        RepositoryWithScore.updated_at r
        = GitHubRepository.updated_at repo /\
        RepositoryWithScore.stars r
        = GitHubRepository.stargazers_count repo /\
        RepositoryWithScore.forks r = GitHubRepository.forks_count repo /\
        RepositoryWithScore.open_issues r
        = GitHubRepository.open_issues_count repo.
Proof.
  assert (Hrun : exists scored,
    @transformRepositories isoDate scoringService (fun _ => 1672531200000)
      [createMockRepo 0 0 "2023-01-01T00:00:00Z"] = Some scored).
  { unfold transformRepositories, transformRepository. cbn [imap mapM].
    rewrite (@calculatePopularityScore_Some isoDate scoringService
               1672531200000 (createMockRepo 0 0 "2023-01-01T00:00:00Z")
               1672531200000) by (vm_compute; reflexivity).
    eexists. reflexivity. }
  destruct Hrun as [scored Hrun]. exists scored. split; [exact Hrun |].
  exact (@transformRepositories_elementwise isoDate scoringService
           (fun _ => 1672531200000)
           [createMockRepo 0 0 "2023-01-01T00:00:00Z"] scored Hrun).
Defined.

(* ===================================================================== *)
(** * Further properties of the sort *)
(* ===================================================================== *)

Lemma Sorted_weaken {A} (R R' : A -> A -> Prop) l :
  (forall x y, R x y -> R' x y) -> Sorted R l -> Sorted R' l.
Proof.
  intros Himp. induction 1 as [| x l Hl IH Hx]; constructor; [exact IH |].
  destruct Hx; constructor. now apply Himp.
Qed.

(** X11.  An argument whose records already stand in the requested
    order, each one in order with its successor, comes back as the same
    sequence (in a new array). *)
Theorem sortByPopularityScore_sorted_input
    (h : gmap loc (list RepositoryWithScore.t)) (repos : loc)
    (order : option SortOrder) (items : list RepositoryWithScore.t) :
  h !! repos = Some items ->
  Sorted (inOrder (default desc order)) items ->
  exists h' out,
    sortByPopularityScore h repos order = Some (h', out) /\
    h' !! out = Some items /\
    out <> repos.
Proof.
  intros Hitems Hsorted. do 2 eexists.
  split; [exact (sortByPopularityScore_run _ _ _ _ Hitems) |].
  split.
  - rewrite lookup_insert_eq. f_equal.
    apply sort_elements_sorted_id.
    eapply Sorted_weaken; [| exact Hsorted].
    intros a b Hab. now apply compareScores_keeps.
  - apply not_eq_sym, fresh_not_allocated. now rewrite Hitems.
Qed.

Lemma sortByPopularityScore_sorted_input_witness :
  exists h' out,
    sortByPopularityScore
      {[ 1%positive := [mockScored 7.5; mockScored 5.5; mockScored 5.5] ]}
      1%positive None = Some (h', out) /\
    h' !! out = Some [mockScored 7.5; mockScored 5.5; mockScored 5.5] /\
    out <> 1%positive.
Proof.
  apply (sortByPopularityScore_sorted_input
           {[ 1%positive :=
                [mockScored 7.5; mockScored 5.5; mockScored 5.5] ]}
           1%positive None
           [mockScored 7.5; mockScored 5.5; mockScored 5.5]).
  - vm_compute. reflexivity.
  - repeat constructor; simpl; unfold Qle; simpl; lia.
Defined.

Lemma elem_of_rev {A} (x : A) l : x ∈ rev l <-> x ∈ l.
Proof. now rewrite !list_elem_of_In, <- in_rev. Qed.

Lemma StronglySorted_rev {A} (R : A -> A -> Prop) l :
  StronglySorted R l -> StronglySorted (fun x y => R y x) (rev l).
Proof.
  induction 1 as [| x l Hl IH Hx]; simpl; [constructor |].
  apply StronglySorted_app_2; [| exact IH | repeat constructor].
  intros x1 x2 Hx1 Hx2%list_elem_of_singleton. subst x2.
  apply (proj1 (elem_of_rev _ _)) in Hx1.
  rewrite List.Forall_forall in Hx. apply Hx.
  apply (proj1 (list_elem_of_In _ _)), Hx1.
Qed.

(** With pairwise different scores, records with equal scores are one
    and the same record. *)
Lemma pairwiseDistinctScores_inj l a b :
  pairwiseDistinctScores l -> a ∈ l -> b ∈ l ->
  (RepositoryWithScore.popularity_score a ==
   RepositoryWithScore.popularity_score b)%Q ->
  a = b.
Proof.
  unfold pairwiseDistinctScores.
  induction 1 as [| x l Hl IH Hx]; intros Ha Hb Heq.
  - now apply elem_of_nil in Ha.
  - rewrite List.Forall_forall in Hx.
    apply elem_of_cons in Ha as [-> | Ha], Hb as [-> | Hb].
    + reflexivity.
    + exfalso.
      apply (Hx b); [apply (proj1 (list_elem_of_In _ _)), Hb | exact Heq].
    + exfalso. apply (Hx a); [apply (proj1 (list_elem_of_In _ _)), Ha |].
      now symmetry.
    + now apply IH.
Qed.

(** X12.  When no two records of the argument have the same score, the
    ascending result is the descending result read backwards. *)
Theorem sortByPopularityScore_asc_reverses_desc
    (h : gmap loc (list RepositoryWithScore.t)) (repos : loc)
    (items : list RepositoryWithScore.t) :
  h !! repos = Some items ->
  pairwiseDistinctScores items ->
  exists h1 out1 down h2 out2 up,
    sortByPopularityScore h repos (Some desc) = Some (h1, out1) /\
    h1 !! out1 = Some down /\
    sortByPopularityScore h repos (Some asc) = Some (h2, out2) /\
    h2 !! out2 = Some up /\
    up = rev down.
Proof.
  intros Hitems Hdistinct. do 6 eexists.
  split; [exact (sortByPopularityScore_run _ _ _ _ Hitems) |].
  split; [apply lookup_insert_eq |].
  split; [exact (sortByPopularityScore_run _ _ _ _ Hitems) |].
  split; [apply lookup_insert_eq |].
  cbn [default].
  apply (StronglySorted_unique_strong (inOrder asc)).
  - intros x1 x2 Hx1 Hx2 H12 H21.
    apply (pairwiseDistinctScores_inj items); [exact Hdistinct | | |].
    + now rewrite sort_elements_perm in Hx1.
    + apply (proj1 (elem_of_rev _ _)) in Hx2.
      now rewrite sort_elements_perm in Hx2.
    + simpl in H12, H21. now apply Qle_antisym.
  - apply sort_scores_sorted.
  - apply (StronglySorted_rev (inOrder desc)), sort_scores_sorted.
  - now rewrite <- Permutation_rev, !sort_elements_perm.
Qed.

Lemma sortByPopularityScore_asc_reverses_desc_witness :
  exists h1 out1 down h2 out2 up,
    sortByPopularityScore {[ 1%positive := threeScored ]} 1%positive
      (Some desc) = Some (h1, out1) /\
    h1 !! out1 = Some down /\
    sortByPopularityScore {[ 1%positive := threeScored ]} 1%positive
      (Some asc) = Some (h2, out2) /\
    h2 !! out2 = Some up /\
    up = rev down.
Proof.
  apply (sortByPopularityScore_asc_reverses_desc
           {[ 1%positive := threeScored ]} 1%positive threeScored).
  - vm_compute. reflexivity.
  - unfold pairwiseDistinctScores, threeScored.
    repeat constructor; simpl; unfold Qeq; simpl; lia.
Defined.

(* ===================================================================== *)
(** * Further properties of the query translation *)
(* ===================================================================== *)

Lemma keepAllowed_all s : String_forallb allowed (keepAllowed s) = true.
Proof.
  induction s as [| c s IH]; simpl; [reflexivity |].
  destruct (allowed c) eqn:Hc; simpl; [now rewrite Hc |]. exact IH.
Qed.

Lemma keepAllowed_fixed s : keepAllowed s = s <-> String_forallb allowed s = true.
Proof.
  split.
  - intros Heq. rewrite <- Heq. apply keepAllowed_all.
  - induction s as [| c s IH]; simpl; [reflexivity |].
    intros [Hc Hs]%andb_true_iff. rewrite Hc. f_equal. now apply IH.
Qed.

Lemma keepAllowed_length s :
  (String.length (keepAllowed s) <= String.length s)%nat.
Proof.
  induction s as [| c s IH]; simpl; [lia |].
  destruct (allowed c); simpl; lia.
Qed.

(** X13.  [sanitizeInput] changes nothing when applied a second time,
    never makes a string longer, and leaves a string as it is exactly
    when every character of it is in the allow-set. *)
Theorem sanitizeInput_idempotent :
  (forall input, sanitizeInput (sanitizeInput input) = sanitizeInput input) /\
  (forall input,
     (String.length (sanitizeInput input) <= String.length input)%nat) /\
  (forall input,
     sanitizeInput input = input <-> String_forallb allowed input = true).
Proof.
  split; [| split]; intros input; rewrite !sanitizeInput_keepAllowed.
  - apply keepAllowed_fixed, keepAllowed_all.
  - apply keepAllowed_length.
  - apply keepAllowed_fixed.
Qed.

Lemma languagePattern_allowed c :
  class_matches languagePattern c = true -> allowed c = true.
Proof.
  destruct c as [b0 b1 b2 b3 b4 b5 b6 b7].
  destruct b0, b1, b2, b3, b4, b5, b6, b7; vm_compute; congruence.
Qed.

Lemma String_forallb_impl (p q : ascii -> bool) s :
  (forall c, p c = true -> q c = true) ->
  String_forallb p s = true -> String_forallb q s = true.
Proof.
  intros Himp. induction s as [| c s IH]; simpl; [easy |].
  intros [Hc Hs]%andb_true_iff. now rewrite (Himp c Hc), IH.
Qed.

(** X14.  A language that the validator accepts passes the sanitizer
    unchanged, so that its clause is [language:] and the value as it was
    given. *)
Theorem sanitizeInput_validated `{JSDate} (language : string) :
  validLanguage language = true ->
  sanitizeInput language = language /\
  buildQueryString (searchQuery (Some language) None)
  = Return ("language:" +:+ language).
Proof.
  unfold validLanguage, RegExp_test_plus.
  intros [[_ _]%andb_true_iff [Hne Hall]%andb_true_iff]%andb_true_iff.
  assert (Hfix : sanitizeInput language = language).
  { rewrite sanitizeInput_keepAllowed. apply keepAllowed_fixed.
    eapply String_forallb_impl; [apply languagePattern_allowed | exact Hall]. }
  split; [exact Hfix |].
  unfold buildQueryString, searchQuery. cbn [SearchQuery.language truthy].
  rewrite Hne. cbn -[sanitizeInput]. now rewrite Hfix.
Qed.

Lemma sanitizeInput_validated_witness :
  sanitizeInput "c++" = "c++" /\
  @buildQueryString isoDate (searchQuery (Some "c++") None)
  = Return ("language:" +:+ "c++").
Proof.
  apply (@sanitizeInput_validated isoDate "c++").
  vm_compute. reflexivity.
Defined.

Section QueryAlphabet.

Lemma countChar_append c (a b : string) :
  countChar c (a +:+ b) = (countChar c a + countChar c b)%nat.
Proof.
  induction a as [| x a IH]; [reflexivity |].
  change (countChar c (String x (a +:+ b))
          = (countChar c (String x a) + countChar c b)%nat).
  cbn [countChar]. rewrite IH. lia.
Qed.

Lemma countChar_absent c s : occursIn c s = false -> countChar c s = O.
Proof.
  induction s as [| x s IH]; simpl; [reflexivity |].
  intros [Hx Hs]%orb_false_elim. rewrite Hx, (IH Hs). reflexivity.
Qed.

Lemma String_forallb_append p (a b : string) :
  String_forallb p (a +:+ b) = String_forallb p a && String_forallb p b.
Proof.
  induction a as [| x a IH]; [reflexivity |].
  change (String_forallb p (String x (a +:+ b))
          = String_forallb p (String x a) && String_forallb p b).
  cbn [String_forallb]. now rewrite IH, andb_assoc.
Qed.

Lemma occursIn_forallb p c s :
  String_forallb p s = true -> p c = false -> occursIn c s = false.
Proof.
  induction s as [| x s IH]; simpl; [reflexivity |].
  intros [Hx Hs]%andb_true_iff Hc. rewrite (IH Hs Hc), orb_false_r.
  apply Ascii.eqb_neq. intros ->. congruence.
Qed.

Lemma isDigit_allowed c : isDigit c = true -> allowed c = true.
Proof. unfold allowed. intros ->. now rewrite orb_true_r. Qed.

Lemma digits_allowed width n : String_forallb allowed (digits width n) = true.
Proof.
  revert n. induction width as [| w IH]; intros n; [reflexivity |].
  cbn [digits]. rewrite String_forallb_append, IH. cbn [String_forallb].
  rewrite isDigit_allowed; [reflexivity |].
  apply digit_isDigit, Z.mod_pos_bound. lia.
Qed.

Lemma Date_isoDate_allowed t : String_forallb allowed (Date_isoDate t) = true.
Proof.
  unfold Date_isoDate, isoYear.
  destruct (_ && _); [| destruct (YearFromTime t <? 0)];
    rewrite !String_forallb_append, !digits_allowed; reflexivity.
Qed.

Lemma sanitizeInput_allowed s : String_forallb allowed (sanitizeInput s) = true.
Proof. rewrite sanitizeInput_keepAllowed. apply keepAllowed_all. Qed.

(** The query string, by the filters that are set. *)
Lemma buildQueryString_cases `{JSDate} query queryString :
  buildQueryString query = Return queryString ->
  let l := sanitizeInput (default "" (SearchQuery.language query)) in
  match truthy (SearchQuery.language query),
        truthy (SearchQuery.createdAfter query) with
  | true, true =>
      exists t, queryString = "language:" +:+ l +:+ " " +:+ "created:>="
                              +:+ Date_isoDate t
  | true, false => queryString = "language:" +:+ l
  | false, true => exists t, queryString = "created:>=" +:+ Date_isoDate t
  | false, false => queryString = "stars:>0"
  end.
Proof.
  unfold buildQueryString.
  destruct (truthy (SearchQuery.language query)),
           (truthy (SearchQuery.createdAfter query));
    try destruct (Date_parse (default "" (SearchQuery.createdAfter query)))
      as [t |];
    cbn -[sanitizeInput Date_isoDate Date_toISOString String_split];
    rewrite ?formattedDate_isoDate; intros [= <-]; eauto.
Qed.
End QueryAlphabet.

(** X15.  A query string holds one colon for each of its clauses and no
    other, and all its characters are of the allow-set or one of [:],
    [>] and [=]: no filter value can bring in a qualifier of its own. *)
Theorem buildQueryString_no_injection `{JSDate}
    (query : SearchQuery.t) (queryString : string) :
  buildQueryString query = Return queryString ->
  countChar ":" queryString
  = ((if truthy (SearchQuery.language query) then 1 else 0) +
     (if truthy (SearchQuery.createdAfter query) then 1 else 0) +
     (if truthy (SearchQuery.language query)
         || truthy (SearchQuery.createdAfter query) then 0 else 1))%nat /\
  String_forallb (fun c => allowed c || occursIn c ":>=") queryString = true.
Proof.
  intros Hq%buildQueryString_cases. cbv zeta in Hq.
  pose proof (sanitizeInput_allowed
                (default "" (SearchQuery.language query))) as Hl.
  assert (Hcolon : forall s, String_forallb allowed s = true ->
            countChar ":" s = O)
    by (intros s Hs; apply countChar_absent;
        now apply (occursIn_forallb allowed)).
  assert (Hwide : forall s, String_forallb allowed s = true ->
            String_forallb (fun c => allowed c || occursIn c ":>=") s = true)
    by (intros s; apply String_forallb_impl; intros c ->; reflexivity).
  destruct (truthy (SearchQuery.language query)),
           (truthy (SearchQuery.createdAfter query)).
  - destruct Hq as [t ->]. pose proof (Date_isoDate_allowed t) as Ht.
    rewrite !countChar_append, !String_forallb_append.
    rewrite (Hcolon _ Hl), (Hcolon _ Ht), (Hwide _ Hl), (Hwide _ Ht).
    split; reflexivity.
  - subst queryString.
    rewrite !countChar_append, !String_forallb_append.
    rewrite (Hcolon _ Hl), (Hwide _ Hl). split; reflexivity.
  - destruct Hq as [t ->]. pose proof (Date_isoDate_allowed t) as Ht.
    rewrite !countChar_append, !String_forallb_append.
    rewrite (Hcolon _ Ht), (Hwide _ Ht). split; reflexivity.
  - subst queryString. split; reflexivity.
Qed.

Lemma buildQueryString_no_injection_witness :
  countChar ":" "language:rust stars100 created:>=2024-01-01"
  = ((if truthy (Some "rust stars:>100") then 1 else 0) +
     (if truthy (Some "2024-01-01") then 1 else 0) +
     (if truthy (Some "rust stars:>100") || truthy (Some "2024-01-01")
      then 0 else 1))%nat /\
  String_forallb (fun c => allowed c || occursIn c ":>=")
    "language:rust stars100 created:>=2024-01-01" = true.
Proof.
  apply (@buildQueryString_no_injection isoDate
           (searchQuery (Some "rust stars:>100") (Some "2024-01-01"))
           "language:rust stars100 created:>=2024-01-01").
  vm_compute. reflexivity.
Defined.

(* ===================================================================== *)
(** * Properties of the search *)
(* ===================================================================== *)


Section Search.
Context `{JSDate} `{Upstream}.
Variable scoring : ScoringService.
Variable nows : nat -> Z.

(** The run of a search, step by step. *)
Lemma searchRepositories_steps query w :
  searchRepositories scoring nows query w =
  match buildQueryString query with
  | Throw error => Some (Throw error, w)
  | Return q =>
      let params := requestOf query q in
      let sent := ("/search/repositories", params) :: requests w in
      match client_get "/search/repositories" params with
      | Throw error => Some (Throw error, {| store := store w; requests := sent |})
      | Return response =>
          match transformRepositories scoring nows
                  (GitHubSearchResponse.items response) with
          | None => None
          | Some scored =>
              let a := fresh (dom (store w)) in
              let h := <[a := scored]> (store w) in
              let '(h', items) :=
                match SearchQuery.sort query with
                | Some sort_score =>
                    (<[fresh (dom h) :=
                         sort_elements
                           (compareScores (default desc (SearchQuery.order query)))
                           scored]> h,
                     fresh (dom h))
                | _ => (h, a)
                end in
              Some (Return
                      (SearchResult.mk
                         (GitHubSearchResponse.total_count response)
                         (GitHubSearchResponse.incomplete_results response)
                         items
                         (SearchParams.page params)
                         (SearchParams.per_page params)),
                    {| store := h'; requests := sent |})
          end
      end
  end.
Proof.
  unfold searchRepositories.
  destruct (buildQueryString query) as [q | error]; [| reflexivity].
  fold (requestOf query q). cbv zeta.
  destruct (client_get "/search/repositories" (requestOf query q))
    as [response | error]; [| reflexivity].
  destruct (transformRepositories scoring nows
              (GitHubSearchResponse.items response)) as [scored |];
    [| reflexivity].
  cbn [mbind option_bind store].
  assert (Hsort :
    sortByPopularityScore (<[fresh (dom (store w)) := scored]> (store w))
      (fresh (dom (store w)))
      (Some (default desc (SearchQuery.order query)))
    = Some (<[fresh (dom (<[fresh (dom (store w)) := scored]> (store w))) :=
               sort_elements
                 (compareScores (default desc (SearchQuery.order query)))
                 scored]> (<[fresh (dom (store w)) := scored]> (store w)),
            fresh (dom (<[fresh (dom (store w)) := scored]> (store w)))))
    by exact (sortByPopularityScore_run _ _
                (Some (default desc (SearchQuery.order query))) scored
                (lookup_insert_eq _ _ _)).
  destruct (SearchQuery.sort query) as [[] |]; rewrite ?Hsort; reflexivity.
Qed.
End Search.

Lemma mapSortParameter_not_score sort :
  mapSortParameter sort <> Some "score".
Proof. destruct sort as [[] |]; discriminate. Qed.

Lemma or_default_nonzero x d : d <> 0 -> or_default x d <> 0.
Proof.
  intros Hd. unfold or_default. destruct x as [n |]; [| exact Hd].
  destruct (Z.eqb_spec n 0); congruence.
Qed.

(** X16.  A search sends one request upstream when the query string can
    be built, and none when it cannot: then it ends with the error of
    [buildQueryString] and leaves the world as it was.  The request
    carries the query string, never asks upstream to sort by the score
    (the key is left out), orders descending unless told otherwise, and
    never has a page or a page size of 0: a missing or zero value
    becomes page 1 and 30 per page. *)
Theorem searchRepositories_request `{JSDate} `{Upstream}
    (scoring : ScoringService) (nows : nat -> Z) (query : SearchQuery.t)
    (w w' : World) (outcome : Completion SearchResult.t) :
  searchRepositories scoring nows query w = Some (outcome, w') ->
  match buildQueryString query with
  | Throw error => outcome = Throw error /\ w' = w
  | Return q =>
      exists params,
        requests w' = ("/search/repositories", params) :: requests w /\
        SearchParams.q params = q /\
        SearchParams.sort params = mapSortParameter (SearchQuery.sort query) /\
        SearchParams.sort params <> Some "score" /\
        SearchParams.order params = default desc (SearchQuery.order query) /\
        SearchParams.page params <> 0 /\
        SearchParams.per_page params <> 0 /\
        (forall n, SearchQuery.page query = Some n -> n <> 0 ->
                   SearchParams.page params = n) /\
        (SearchQuery.page query = None \/ SearchQuery.page query = Some 0 ->
         SearchParams.page params = 1) /\
        (forall n, SearchQuery.perPage query = Some n -> n <> 0 ->
                   SearchParams.per_page params = n) /\
        (SearchQuery.perPage query = None \/
         SearchQuery.perPage query = Some 0 ->
         SearchParams.per_page params = 30)
  end.
Proof.
  rewrite searchRepositories_steps.
  destruct (buildQueryString query) as [q | error].
  - cbv zeta. intros Hrun. exists (requestOf query q).
    assert (Hsent : requests w'
                    = ("/search/repositories", requestOf query q)
                      :: requests w).
    { destruct (client_get _ _) as [response | error];
        [| now injection Hrun as <- <-].
      destruct (transformRepositories _ _ _) as [scored |];
        [| discriminate].
      destruct (match SearchQuery.sort query with
                | Some sort_score => _ | _ => _ end) as [h' items].
      now injection Hrun as <- <-. }
    split; [exact Hsent |].
    cbn [requestOf SearchParams.q SearchParams.sort SearchParams.order
         SearchParams.page SearchParams.per_page].
    split; [reflexivity |]. split; [reflexivity |].
    split; [apply mapSortParameter_not_score |].
    split; [reflexivity |].
    split; [now apply or_default_nonzero |].
    split; [now apply or_default_nonzero |].
    unfold or_default, config_api_defaultPerPage.
    repeat split.
    + intros n -> Hn. now destruct (Z.eqb_spec n 0).
    + now intros [-> | ->].
    + intros n -> Hn. now destruct (Z.eqb_spec n 0).
    + now intros [-> | ->].
  - now intros [= <- <-].
Qed.

Lemma searchRepositories_request_witness :
  exists params,
    requests
      {| store := ∅;
         requests :=
           [("/search/repositories",
             SearchParams.mk "language:rust" None asc 30 2)] |}
    = ("/search/repositories", params) :: requests emptyWorld /\
    SearchParams.q params = "language:rust" /\
    SearchParams.sort params = mapSortParameter (Some sort_score) /\
    SearchParams.sort params <> Some "score" /\
    SearchParams.order params = default desc (Some asc) /\
    SearchParams.page params <> 0 /\
    SearchParams.per_page params <> 0 /\
    (forall n, Some 2 = Some n -> n <> 0 -> SearchParams.page params = n) /\
    (Some 2 = None \/ Some 2 = Some 0 -> SearchParams.page params = 1) /\
    (forall n, Some 0 = Some n -> n <> 0 ->
               SearchParams.per_page params = n) /\
    (Some 0 = None \/ Some 0 = Some 0 -> SearchParams.per_page params = 30).
Proof.
  apply (@searchRepositories_request isoDate unreachableUpstream
           scoringService (fun _ => 1704067200000)
           (SearchQuery.mk (Some "rust") None (Some sort_score) (Some asc)
                           (Some 2) (Some 0))
           emptyWorld
           {| store := ∅;
              requests :=
                [("/search/repositories",
                  SearchParams.mk "language:rust" None asc 30 2)] |}
           (Throw (GitHubAPIError
              "Unable to reach GitHub API. Please check your network connection."
              503 None))).
  vm_compute. reflexivity.
Defined.

(** X17.  The outcome of a search whose query string is built follows
    the answer of the upstream to the request that was sent: an error is
    passed on as it is, after that one request and with every array of
    the store untouched; a page gives a result with the total count and
    the incomplete flag of the upstream and with the page and page size
    of the request. *)
Theorem searchRepositories_outcome `{JSDate} `{Upstream}
    (scoring : ScoringService) (nows : nat -> Z) (query : SearchQuery.t)
    (w w' : World) (outcome : Completion SearchResult.t) (q : string) :
  searchRepositories scoring nows query w = Some (outcome, w') ->
  buildQueryString query = Return q ->
  exists params,
    requests w' = ("/search/repositories", params) :: requests w /\
    match client_get "/search/repositories" params with
    | Throw error => outcome = Throw error /\ store w' = store w
    | Return response =>
        exists result,
          outcome = Return result /\
          SearchResult.total_count result
          = GitHubSearchResponse.total_count response /\
          SearchResult.incomplete_results result
          = GitHubSearchResponse.incomplete_results response /\
          SearchResult.page result = SearchParams.page params /\
          SearchResult.per_page result = SearchParams.per_page params
    end.
Proof.
  rewrite searchRepositories_steps. intros Hrun Hq. rewrite Hq in Hrun.
  cbv zeta in Hrun. exists (requestOf query q).
  destruct (client_get "/search/repositories" (requestOf query q))
    as [response | error].
  - destruct (transformRepositories _ _ _) as [scored |]; [| discriminate].
    destruct (match SearchQuery.sort query with
              | Some sort_score => _ | _ => _ end) as [h' items].
    injection Hrun as <- <-. split; [reflexivity |].
    eexists. repeat split.
  - injection Hrun as <- <-. repeat split.
Qed.

Lemma searchRepositories_outcome_witness :
  exists params,
    requests
      {| store := ∅;
         requests :=
           [("/search/repositories",
             SearchParams.mk "language:rust" None desc 30 1)] |}
    = ("/search/repositories", params) :: requests emptyWorld /\
    match @client_get unreachableUpstream "/search/repositories" params with
    | Throw error =>
        @Throw SearchResult.t (GitHubAPIError
          "Unable to reach GitHub API. Please check your network connection."
          503 None) = Throw error /\
        store
          {| store := ∅;
             requests :=
               [("/search/repositories",
                 SearchParams.mk "language:rust" None desc 30 1)] |}
        = store emptyWorld
    | Return response =>
        exists result : SearchResult.t,
          @Throw SearchResult.t (GitHubAPIError
            "Unable to reach GitHub API. Please check your network connection."
            503 None) = Return result /\
          SearchResult.total_count result
          = GitHubSearchResponse.total_count response /\
          SearchResult.incomplete_results result
          = GitHubSearchResponse.incomplete_results response /\
          SearchResult.page result = SearchParams.page params /\
          SearchResult.per_page result = SearchParams.per_page params
    end.
Proof.
  apply (@searchRepositories_outcome isoDate unreachableUpstream
           scoringService (fun _ => 1704067200000)
           (searchQuery (Some "rust") None) emptyWorld
           {| store := ∅;
              requests :=
                [("/search/repositories",
                  SearchParams.mk "language:rust" None desc 30 1)] |}
           (Throw (GitHubAPIError
              "Unable to reach GitHub API. Please check your network connection."
              503 None))
           "language:rust").
  - vm_compute. reflexivity.
  - vm_compute. reflexivity.
Defined.

(** X18.  The items of a successful search are in a new array, and the
    arrays that the store held keep their content.  The array holds the
    transformed records of the page: in upstream order when the sort key
    is not the score; when it is, in the order of their scores
    (descending unless told otherwise), the same records, those with the
    same score as they stood upstream. *)
Theorem searchRepositories_items `{JSDate} `{Upstream}
    (scoring : ScoringService) (nows : nat -> Z) (query : SearchQuery.t)
    (w w' : World) (result : SearchResult.t) :
  searchRepositories scoring nows query w = Some (Return result, w') ->
  exists params response scored final,
    requests w' = ("/search/repositories", params) :: requests w /\
    client_get "/search/repositories" params = Return response /\
    transformRepositories scoring nows
      (GitHubSearchResponse.items response) = Some scored /\
    store w' !! SearchResult.items result = Some final /\
    store w !! SearchResult.items result = None /\
    (forall l, is_Some (store w !! l) -> store w' !! l = store w !! l) /\
    length final = length (GitHubSearchResponse.items response) /\
    match SearchQuery.sort query with
    | Some sort_score =>
        StronglySorted
          (inOrder (default desc (SearchQuery.order query))) final /\
        final ≡ₚ scored /\
        (forall v, List.filter (hasScore v) final
                   = List.filter (hasScore v) scored)
    | _ => final = scored
    end.
Proof.
  rewrite searchRepositories_steps.
  destruct (buildQueryString query) as [q | error]; [| discriminate].
  cbv zeta.
  destruct (client_get "/search/repositories" (requestOf query q))
    as [response | error] eqn:Hget; [| discriminate].
  destruct (transformRepositories scoring nows
              (GitHubSearchResponse.items response)) as [scored |] eqn:Hscored;
    [| discriminate].
  set (a := fresh (dom (store w))).
  set (h := <[a := scored]> (store w)).
  assert (Ha : store w !! a = None)
    by (apply not_elem_of_dom, is_fresh).
  assert (Hlen : length scored = length (GitHubSearchResponse.items response)).
  { unfold transformRepositories in Hscored.
    apply length_mapM in Hscored. now rewrite length_imap in Hscored. }
  assert (Hold : forall l, is_Some (store w !! l) -> h !! l = store w !! l).
  { intros l [x Hl]. apply lookup_insert_ne. intros <-. congruence. }
  destruct (SearchQuery.sort query) as [[] |] eqn:Hsort;
    intros [= <- <-]; cbn [SearchResult.items store requests].
  - set (b := fresh (dom h)).
    assert (Hb : h !! b = None) by (apply not_elem_of_dom, is_fresh).
    exists (requestOf query q), response, scored,
      (sort_elements (compareScores (default desc (SearchQuery.order query)))
         scored).
    split; [reflexivity |]. split; [exact Hget |]. split; [exact Hscored |].
    split; [apply lookup_insert_eq |].
    split.
    { destruct (store w !! b) eqn:Hwb; [| reflexivity].
      rewrite <- (Hold b) in Hwb by (now rewrite Hwb). congruence. }
    split.
    { intros l Hl. rewrite lookup_insert_ne; [now apply Hold |].
      intros <-. rewrite (Hold b Hl) in Hb. rewrite Hb in Hl.
      now destruct Hl. }
    split; [now rewrite sort_elements_perm |].
    split; [apply sort_scores_sorted |].
    split; [apply sort_elements_perm |].
    intros v. apply sort_elements_filter.
    intros x y Hx Hy. apply compareScores_keeps.
    eapply hasScore_tie; eassumption.
  - exists (requestOf query q), response, scored, scored.
    repeat split; try assumption; try reflexivity. apply lookup_insert_eq.
  - exists (requestOf query q), response, scored, scored.
    repeat split; try assumption; try reflexivity. apply lookup_insert_eq.
  - exists (requestOf query q), response, scored, scored.
    repeat split; try assumption; try reflexivity. apply lookup_insert_eq.
  - exists (requestOf query q), response, scored, scored.
    repeat split; try assumption; try reflexivity. apply lookup_insert_eq.
Qed.

Lemma searchRepositories_items_witness :
  exists (result : SearchResult.t) (w' : World),
    @searchRepositories isoDate (fixedUpstream twoRepoPage) scoringService
      (fun _ => 1704067200000)
      (SearchQuery.mk None None (Some sort_score) None None None)
      emptyWorld = Some (Return result, w') /\
    exists params response scored final,
      requests w' = ("/search/repositories", params) :: requests emptyWorld /\
      @client_get (fixedUpstream twoRepoPage) "/search/repositories" params
      = Return response /\
      @transformRepositories isoDate scoringService (fun _ => 1704067200000)
        (GitHubSearchResponse.items response) = Some scored /\
      store w' !! SearchResult.items result = Some final /\
      store emptyWorld !! SearchResult.items result = None /\
      (forall l, is_Some (store emptyWorld !! l) ->
                 store w' !! l = store emptyWorld !! l) /\
      length final = length (GitHubSearchResponse.items response) /\
      StronglySorted (inOrder (default desc None)) final /\
      final ≡ₚ scored /\
      (forall v, List.filter (hasScore v) final
                 = List.filter (hasScore v) scored).
Proof.
  assert (Hrun : exists result w',
    @searchRepositories isoDate (fixedUpstream twoRepoPage) scoringService
      (fun _ => 1704067200000)
      (SearchQuery.mk None None (Some sort_score) None None None)
      emptyWorld = Some (Return result, w')).
  { rewrite (@searchRepositories_steps isoDate (fixedUpstream twoRepoPage)).
    assert (Hq : @buildQueryString isoDate
                   (SearchQuery.mk None None (Some sort_score) None None None)
                 = Return "stars:>0") by (vm_compute; reflexivity).
    rewrite Hq. cbv zeta. cbn [client_get fixedUpstream].
    assert (Hscored : exists scored,
      @transformRepositories isoDate scoringService (fun _ => 1704067200000)
        (GitHubSearchResponse.items twoRepoPage) = Some scored).
    { unfold transformRepositories, transformRepository, twoRepoPage.
      cbn [GitHubSearchResponse.items imap mapM compose].
      rewrite (@calculatePopularityScore_Some isoDate scoringService
                 1704067200000 (createMockRepo 10 5 "2023-01-01T00:00:00Z")
                 1672531200000) by (vm_compute; reflexivity).
      rewrite (@calculatePopularityScore_Some isoDate scoringService
                 1704067200000
                 (createMockRepo 1000 100 "2024-01-01T00:00:00Z")
                 1704067200000) by (vm_compute; reflexivity).
      eexists. reflexivity. }
    destruct Hscored as [scored ->].
    cbn [SearchQuery.sort]. do 2 eexists. reflexivity. }
  destruct Hrun as (result & w' & Hrun). exists result, w'.
  split; [exact Hrun |].
  exact (@searchRepositories_items isoDate (fixedUpstream twoRepoPage)
           scoringService (fun _ => 1704067200000)
           (SearchQuery.mk None None (Some sort_score) None None None)
           emptyWorld w' result Hrun).
Defined.

(* ===================================================================== *)
(** * The error path: upstream failures and the responses for them *)
(* ===================================================================== *)

(** ** What [handleAPIError] throws *)

(** X19. [handleAPIError] throws a [RateLimitError] exactly for an
    upstream response with status 403 whose message contains
    ["rate limit"], a [ValidationError] exactly for an upstream response
    with status 422, and a [GitHubAPIError] in every other case. *)
Theorem handleAPIError_classes (error : AxiosError.t) :
  let thrown := handleAPIError error in
  (ErrorObject_name thrown = "RateLimitError" <->
   exists response message,
     AxiosError.response error = Some response /\
     AxiosResponse.status response = 403 /\
     ResponseData.message (AxiosResponse.data response) = Some message /\
     String_includes "rate limit" message = true) /\
  (ErrorObject_name thrown = "ValidationError" <->
   exists response,
     AxiosError.response error = Some response /\
     AxiosResponse.status response = 422) /\
  (ErrorObject_name thrown <> "RateLimitError" ->
   ErrorObject_name thrown <> "ValidationError" ->
   ErrorObject_name thrown = "GitHubAPIError").
Proof.
  destruct error as [[[status [message errors] header] |] request];
    cbn -[String_includes Z.eqb].
  - destruct (Z.eqb_spec status 403) as [-> | H403].
    + destruct message as [message |]; cbn -[String_includes].
      * destruct (String_includes "rate limit" message) eqn:Hm; cbn.
        -- split; [| split].
           ++ split; [| reflexivity]. intros _.
              exists (AxiosResponse.mk 403
                        (ResponseData.mk (Some message) errors) header), message.
              repeat split. exact Hm.
           ++ split; [discriminate |].
              intros (r & [= <-] & Hr). discriminate Hr.
           ++ congruence.
        -- split; [| split].
           ++ split; [discriminate |].
              intros (r & m & [= <-] & _ & [= <-] & Hr). cbn in Hr. congruence.
           ++ split; [discriminate |].
              intros (r & [= <-] & Hr). discriminate Hr.
           ++ reflexivity.
      * split; [| split].
        -- split; [discriminate |].
           intros (r & m & [= <-] & _ & Hr & _). discriminate Hr.
        -- split; [discriminate |].
           intros (r & [= <-] & Hr). discriminate Hr.
        -- reflexivity.
    + cbn [andb].
      destruct (Z.eqb_spec status 422) as [-> | H422]; cbn.
      * split; [| split].
        -- split; [discriminate |].
           intros (r & m & [= <-] & Hr & _). discriminate Hr.
        -- split; [| reflexivity]. intros _.
           exists (AxiosResponse.mk 422 (ResponseData.mk message errors) header).
           split; reflexivity.
        -- intros _ H. now contradiction H.
      * destruct (status =? 503); cbn; (split; [| split]);
          try (split; [discriminate |]); try reflexivity.
        all: try (intros (r & m & [= <-] & Hr & _); cbn in Hr; congruence).
        all: intros (r & [= <-] & Hr); cbn in Hr; congruence.
  - destruct request; (split; [| split]);
      try (split; [discriminate |]); try reflexivity.
    all: try (intros (r & m & Hr & _); discriminate Hr).
    all: intros (r & Hr & _); discriminate Hr.
Qed.

Lemma or_text_nonempty message fallback :
  fallback <> "" -> or_text message fallback <> "".
Proof.
  intros Hf. unfold or_text. destruct message as [s |]; [| exact Hf].
  destruct (String.eqb_spec s ""); assumption.
Qed.

(** X20. The status code of the error that [handleAPIError] throws is
    the status of the upstream response, but for two cases: 429 for a 403
    that reports the rate limit and 400 for a 422.  Without a response it
    is 503 when the request was sent and 500 otherwise. *)
Theorem handleAPIError_statusCode (error : AxiosError.t) :
  let thrown := handleAPIError error in
  match AxiosError.response error with
  | Some response =>
      let status := AxiosResponse.status response in
      (ErrorObject_statusCode thrown = Some status /\
       status <> 422 /\
       ErrorObject_name thrown <> "RateLimitError") \/
      (ErrorObject_statusCode thrown = Some 429 /\
       status = 403 /\
       ErrorObject_name thrown = "RateLimitError") \/
      (ErrorObject_statusCode thrown = Some 400 /\ status = 422)
  | None =>
      ErrorObject_statusCode thrown =
        Some (if AxiosError.request error then 503 else 500)
  end.
Proof.
  destruct error as [[[status [message errors] header] |] request];
    cbn -[String_includes Z.eqb].
  - destruct (Z.eqb_spec status 403) as [-> | H403].
    + destruct (match message with
                | Some m => String_includes "rate limit" m
                | None => false
                end); cbn.
      * right; left. repeat split.
      * left. repeat split; [lia | discriminate].
    + cbn [andb].
      destruct (Z.eqb_spec status 422) as [-> | H422].
      * right; right. split; reflexivity.
      * left. destruct (Z.eqb_spec status 503) as [-> | H503]; cbn;
          repeat split; try assumption; discriminate.
  - destruct request; reflexivity.
Qed.

(** X21. Every error that [handleAPIError] throws is one of the
    application ([instanceof AppError]) and has a message that is not
    empty, also when the upstream message is missing or empty. *)
Theorem handleAPIError_message (error : AxiosError.t) :
  isAppError (handleAPIError error) = true /\
  ErrorObject_message (handleAPIError error) <> "".
Proof.
  destruct error as [[[status [message errors] header] |] request];
    cbn -[String_includes Z.eqb].
  - destruct ((status =? 403) && _); [split; [reflexivity | discriminate] |].
    destruct (status =? 422);
      [split; [reflexivity | apply or_text_nonempty; discriminate] |].
    destruct (status =? 503); [split; [reflexivity | discriminate] |].
    split; [reflexivity | apply or_text_nonempty; discriminate].
  - destruct request; split; (reflexivity || discriminate).
Qed.

(** ** What the handlers answer *)

(** The branches of [errorHandler], one goal for each. *)
Ltac handler_cases :=
  repeat match goal with
         | |- context [if ?b then _ else _] => destruct b eqn:?
         | |- context [match TimeClip ?t with _ => _ end] =>
             destruct (TimeClip t) eqn:?
         end;
  try discriminate.

(** X22. The status of the response that [errorHandler] sends is the
    status code of the error, 500 for an error that is not of the
    application, and the body carries the same number; the response of
    [notFoundHandler] agrees with its body as well. *)
Theorem errorHandler_status (nodeEnv : string) (now : Z) (err : ErrorObject)
    (method path : string) :
  consistent (notFoundHandler method path) /\
  consistent (errorHandler nodeEnv now err) /\
  forall status body,
    errorHandler nodeEnv now err = Responded status body ->
    status = default 500 (ErrorObject_statusCode err) /\
    ErrorResponse.error body =
      (if isAppError err then ErrorObject_name err
       else "InternalServerError").
Proof.
  split; [reflexivity |].
  assert (H : forall status body,
             errorHandler nodeEnv now err = Responded status body ->
             status = ErrorResponse.statusCode body /\
             status = default 500 (ErrorObject_statusCode err) /\
             ErrorResponse.error body =
               (if isAppError err then ErrorObject_name err
                else "InternalServerError")).
  { intros status body.
    destruct err as [sc m | m [d |] | m sc [d |] | m [[| secs] |] | m | n m st];
      cbn -[TimeClip Date_toISOString Z.mul String.eqb];
      handler_cases; intros [= <- <-]; repeat split. }
  split.
  - destruct (errorHandler nodeEnv now err) as [status body |];
      [apply (H _ _ eq_refl) | exact I].
  - intros status body He. apply (H _ _ He).
Qed.

Lemma errorHandler_status_witness :
  errorHandler "production" 0 (NotFoundErrorObject "gone") =
    Responded 404 (ErrorResponse.mk "NotFoundError" "gone" 404 None) /\
  404 = default 500 (ErrorObject_statusCode (NotFoundErrorObject "gone")) /\
  "NotFoundError" = "NotFoundError".
Proof.
  split; [reflexivity |].
  exact (proj2 (proj2 (errorHandler_status "production" 0
                         (NotFoundErrorObject "gone") "GET" "/"))
           404 (ErrorResponse.mk "NotFoundError" "gone" 404 None) eq_refl).
Defined.

(** X23. Outside development the details of the response of
    [errorHandler] are absent, the details of a [ValidationError] or the
    reset information of a [RateLimitError]: never a stack, never the
    details of a [GitHubAPIError].  The details of a [ValidationError]
    and the message of every error of the application are sent there as
    well, so that the message and the errors of an upstream 422 reach
    the client; only the message of an error that is not of the
    application is replaced, and in production alone. *)
Theorem errorHandler_outside_development (nodeEnv : string) (now : Z)
    (err : ErrorObject) (status : Z) (body : ErrorResponse.t) :
  nodeEnv <> "development" ->
  errorHandler nodeEnv now err = Responded status body ->
  match ErrorResponse.details body with
  | None => True
  | Some (DetailsJSON value) =>
      exists message, err = ValidationErrorObject message (Some value)
  | Some (DetailsReset _ _) =>
      exists message seconds,
        err = RateLimitErrorObject message (Some (Num seconds))
  | Some (DetailsData _) => False
  | Some (DetailsStack _) => False
  end /\
  ErrorResponse.message body =
    (if isAppError err then ErrorObject_message err
     else if String.eqb nodeEnv "production"
          then "An unexpected error occurred"
          else ErrorObject_message err).
Proof.
  intros Hdev.
  apply String.eqb_neq in Hdev.
  destruct err as [sc m | m [d |] | m sc [d |] | m [[| secs] |] | m | n m st];
    cbn -[TimeClip Date_toISOString Z.mul String.eqb];
    rewrite ?Hdev; handler_cases; intros [= <- <-];
    cbn -[Date_toISOString Z.mul String.eqb];
    (split; [| reflexivity]); try exact I.
  - now exists m.
  - now exists m, secs.
Qed.

Lemma errorHandler_outside_development_witness :
  "production" <> "development" /\
  errorHandler "production" 0
    (handleAPIError (AxiosError.mk (Some validationFailedResponse) true)) =
    Responded 400
      (ErrorResponse.mk "ValidationError" "Validation Failed" 400
         (Some (DetailsJSON
                  (JArray [JObject [("resource", JString "Search");
                                    ("code", JString "missing")]])))) /\
  (exists message,
     handleAPIError (AxiosError.mk (Some validationFailedResponse) true) =
     ValidationErrorObject message
       (Some (JArray [JObject [("resource", JString "Search");
                               ("code", JString "missing")]]))) /\
  "Validation Failed" = "Validation Failed".
Proof.
  split; [discriminate |]. split; [reflexivity |].
  exact (errorHandler_outside_development "production" 0
           (handleAPIError
              (AxiosError.mk (Some validationFailedResponse) true))
           400 _ ltac:(discriminate) eq_refl).
Defined.

(** X24. An error gets out of [errorHandler] in one case only: a
    [RateLimitError] whose reset time, a number of seconds that is not
    zero, is outside the range of dates once multiplied by 1000; the
    error is then a [RangeError], and no response is sent. *)
Theorem errorHandler_raises (nodeEnv : string) (now : Z) (err : ErrorObject) :
  (exists name message, errorHandler nodeEnv now err = Raised name message) <->
  exists message seconds,
    err = RateLimitErrorObject message (Some (Num seconds)) /\
    seconds <> 0 /\
    ~ (- maxTimeValue <= seconds * 1000 <= maxTimeValue).
Proof.
  split.
  - intros (name & message & He). revert He.
    destruct err as [sc m | m [d |] | m sc [d |] | m [[| secs] |] | m | n m st];
      cbn -[TimeClip Date_toISOString Z.mul String.eqb]; try discriminate.
    destruct (Z.eqb_spec secs 0) as [-> | Hs];
        cbn -[TimeClip Date_toISOString Z.mul]; [discriminate |].
      unfold TimeClip.
      destruct (Z.leb_spec (- maxTimeValue) (secs * 1000));
        destruct (Z.leb_spec (secs * 1000) maxTimeValue);
        cbn -[Date_toISOString Z.mul]; try discriminate;
        intros _; exists m, secs; (split; [reflexivity |]); split;
        try assumption; lia.
  - intros (message & seconds & -> & Hs & Hrange).
    exists "RangeError", "Invalid time value".
    cbn -[TimeClip Date_toISOString Z.mul].
    apply Z.eqb_neq in Hs. rewrite Hs. cbn -[TimeClip Date_toISOString Z.mul].
    unfold TimeClip.
    destruct (Z.leb_spec (- maxTimeValue) (seconds * 1000));
      destruct (Z.leb_spec (seconds * 1000) maxTimeValue);
      cbn -[Date_toISOString Z.mul]; try reflexivity.
    exfalso. apply Hrange. lia.
Qed.

Lemma ceilDiv1000_seconds seconds now :
  ceilDiv1000 (seconds * 1000 - now) = seconds - now / 1000.
Proof.
  unfold ceilDiv1000.
  replace (- (seconds * 1000 - now)) with (now + - seconds * 1000) by lia.
  rewrite Z.div_add by lia. lia.
Qed.

Lemma errorHandler_reset_run (nodeEnv : string) (now : Z) (message : string)
    (seconds : Z) :
  seconds <> 0 ->
  - maxTimeValue <= seconds * 1000 <= maxTimeValue ->
  errorHandler nodeEnv now
    (RateLimitErrorObject message (Some (Num seconds))) =
  Responded 429
    (ErrorResponse.mk "RateLimitError" message 429
       (Some (DetailsReset (Date_toISOString (seconds * 1000))
                (Z.max 0 (seconds - now / 1000))))).
Proof.
  intros Hs Hrange.
  cbn -[TimeClip Date_toISOString Z.mul].
  apply Z.eqb_neq in Hs. rewrite Hs. cbn -[TimeClip Date_toISOString Z.mul].
  unfold TimeClip.
  replace ((- maxTimeValue <=? seconds * 1000) &&
           (seconds * 1000 <=? maxTimeValue)) with true
    by (symmetry; apply andb_true_iff; split; apply Z.leb_le; lia).
  now rewrite ceilDiv1000_seconds.
Qed.

(** X25. For a [RateLimitError] with a reset time of [seconds], not
    zero and in the range of dates, [errorHandler] answers 429 with the
    reset instant in ISO form and with the whole seconds that are left:
    [seconds] minus the current second, and 0 once the instant is
    reached. *)
Theorem errorHandler_reset (nodeEnv : string) (now : Z) (message : string)
    (seconds : Z) :
  seconds <> 0 ->
  - maxTimeValue <= seconds * 1000 <= maxTimeValue ->
  exists resetIn,
    errorHandler nodeEnv now
      (RateLimitErrorObject message (Some (Num seconds))) =
      Responded 429
        (ErrorResponse.mk "RateLimitError" message 429
           (Some (DetailsReset (Date_toISOString (seconds * 1000)) resetIn))) /\
    resetIn = Z.max 0 (seconds - now / 1000) /\
    0 <= resetIn /\
    (resetIn = 0 <-> seconds * 1000 < now + 1000 - now mod 1000).
Proof.
  intros Hs Hrange.
  exists (Z.max 0 (seconds - now / 1000)).
  split; [| split; [reflexivity | split; [lia |]]].
  - now apply errorHandler_reset_run.
  - pose proof (Z.div_mod now 1000 ltac:(lia)) as Hdm.
    pose proof (Z.mod_pos_bound now 1000 ltac:(lia)) as Hm.
    lia.
Qed.

Lemma errorHandler_reset_witness :
  1700000000 <> 0 /\
  - maxTimeValue <= 1700000000 * 1000 <= maxTimeValue /\
  exists resetIn,
    errorHandler "production" 1699999970500
      (RateLimitErrorObject "limit" (Some (Num 1700000000))) =
      Responded 429
        (ErrorResponse.mk "RateLimitError" "limit" 429
           (Some (DetailsReset (Date_toISOString (1700000000 * 1000))
                    resetIn))) /\
    resetIn = 30.
Proof.
  split; [lia |]. split; [unfold maxTimeValue; lia |].
  destruct (errorHandler_reset "production" 1699999970500 "limit" 1700000000
              ltac:(lia) ltac:(unfold maxTimeValue; lia))
    as (resetIn & He & Hr & _).
  exists resetIn. split; [exact He |]. rewrite Hr. reflexivity.
Defined.

(** ** From the upstream header to the response *)

Lemma digitOfRadix_digit d : 0 <= d < 10 -> digitOfRadix 10 (digit d) = Some d.
Proof.
  intros Hd.
  assert (Hcases : d = 0 \/ d = 1 \/ d = 2 \/ d = 3 \/ d = 4 \/
                   d = 5 \/ d = 6 \/ d = 7 \/ d = 8 \/ d = 9) by lia.
  repeat (destruct Hcases as [-> | Hcases]; [reflexivity |]).
  now subst d.
Qed.

(** Reading back the digits that [digits] writes. *)
Lemma parseDigits_digits width n acc rest :
  0 <= n < 10 ^ Z.of_nat width ->
  parseDigits 10 acc (digits width n +:+ rest) =
  parseDigits 10
    (match width with
     | O => acc
     | S _ => Some (10 ^ Z.of_nat width * default 0 acc + n)
     end) rest.
Proof.
  revert n acc rest. induction width as [| w IH]; intros n acc rest Hn;
    [reflexivity |].
  cbn [digits]. rewrite append_assoc.
  assert (Hpow : 10 ^ Z.of_nat (S w) = 10 * 10 ^ Z.of_nat w)
    by (rewrite Nat2Z.inj_succ, Z.pow_succ_r by lia; reflexivity).
  rewrite IH by (split; [apply Z.div_pos; lia |
                         apply Z.div_lt_upper_bound; lia]).
  change (String (digit (n mod 10)) "" +:+ rest)
    with (String (digit (n mod 10)) rest).
  cbn [parseDigits].
  rewrite digitOfRadix_digit by (apply Z.mod_pos_bound; lia).
  f_equal. f_equal.
  pose proof (Z.div_mod n 10 ltac:(lia)) as Hdm.
  destruct w as [| w'].
  - change (10 ^ Z.of_nat 1) with 10 in *. clear Hpow IH.
    assert (n / 10 = 0) by (apply Z.div_small; exact Hn).
    assert (n mod 10 = n) by (apply Z.mod_small; exact Hn).
    cbn [default]. congruence.
  - cbn [default]. unfold Datatypes.id. rewrite Hpow. clear Hpow IH Hn.
    generalize (10 ^ Z.of_nat (S w')) (default 0 acc). intros p a. lia.
Qed.

Lemma isDigit_digitOfRadix c :
  isDigit c = true ->
  isWhiteSpace c = false /\ c <> "-"%char /\ c <> "+"%char /\
  c <> "x"%char /\ c <> "X"%char.
Proof.
  destruct c as [b0 b1 b2 b3 b4 b5 b6 b7].
  destruct b0, b1, b2, b3, b4, b5, b6, b7; vm_compute; intros H;
    try discriminate H; repeat split; discriminate.
Qed.

Lemma digits_isDigit width n : String_forallb isDigit (digits width n) = true.
Proof.
  revert n. induction width as [| w IH]; intros n; [reflexivity |].
  cbn [digits]. rewrite String_forallb_append, IH. cbn [String_forallb].
  rewrite digit_isDigit; [reflexivity |].
  apply Z.mod_pos_bound. lia.
Qed.

(** On a string of decimal digits [parseInt] reads base 10 from the
    first character on. *)
Lemma parseInt_decimal s :
  String_forallb isDigit s = true ->
  parseInt s =
  match parseDigits 10 None s with
  | Some n => Num n
  | None => NaN
  end.
Proof.
  destruct s as [| c s]; [reflexivity |].
  cbn [String_forallb]. intros [Hc Hs]%andb_true_iff.
  destruct (isDigit_digitOfRadix c Hc) as (Hw & Hminus & Hplus & _).
  unfold parseInt. cbn [trimStart]. rewrite Hw.
  assert (Hsign : match String c s with
                  | String "-" s' => (-1, s')
                  | String "+" s' => (1, s')
                  | _ => (1, String c s)
                  end = (1, String c s)).
  { destruct c as [b0 b1 b2 b3 b4 b5 b6 b7].
    destruct b0, b1, b2, b3, b4, b5, b6, b7; try reflexivity;
      congruence. }
  rewrite Hsign.
  assert (Hradix : match String c s with
                   | String "0" (String "x" s') => (16, s')
                   | String "0" (String "X" s') => (16, s')
                   | _ => (10, String c s)
                   end = (10, String c s)).
  { destruct s as [| c' s'].
    - destruct c as [b0 b1 b2 b3 b4 b5 b6 b7].
      destruct b0, b1, b2, b3, b4, b5, b6, b7; reflexivity.
    - cbn [String_forallb] in Hs. apply andb_true_iff in Hs as [Hc' _].
      destruct (isDigit_digitOfRadix c' Hc') as (_ & _ & _ & Hx & HX).
      destruct c as [b0 b1 b2 b3 b4 b5 b6 b7].
      destruct b0, b1, b2, b3, b4, b5, b6, b7; try reflexivity.
      destruct c' as [b0 b1 b2 b3 b4 b5 b6 b7].
      destruct b0, b1, b2, b3, b4, b5, b6, b7; try reflexivity;
        congruence. }
  rewrite Hradix.
  destruct (parseDigits 10 None (String c s)) as [n |]; [| reflexivity].
  now rewrite Z.mul_1_l.
Qed.

(** [parseInt] reads back what [digits] writes. *)
Lemma parseInt_digits width n :
  (0 < width)%nat -> 0 <= n < 10 ^ Z.of_nat width ->
  parseInt (digits width n) = Num n.
Proof.
  intros Hw Hn. rewrite parseInt_decimal by apply digits_isDigit.
  pose proof (parseDigits_digits width n None "" Hn) as Hp.
  assert (Hnil : forall s, s +:+ "" = s).
  { induction s as [| c s IH]; [reflexivity |].
    change (String c (s +:+ "") = String c s). now rewrite IH. }
  rewrite Hnil in Hp. rewrite Hp.
  destruct width as [| w]; [lia |].
  cbn [parseDigits default]. f_equal. lia.
Qed.

Lemma digits_nonempty width n :
  (0 < width)%nat -> String.eqb (digits width n) "" = false.
Proof.
  intros Hw. destruct width as [| w]; [lia |].
  cbn [digits]. destruct (digits w (n / 10)); reflexivity.
Qed.

(** X26. From the upstream header to the client: when upstream answers
    403 with a message about the rate limit and the header
    [x-ratelimit-reset] holds [seconds] in decimal digits, the error
    thrown by [handleAPIError] makes [errorHandler] answer 429 with the
    reset instant [seconds * 1000] in ISO form and the seconds left from
    [now], whatever the environment. *)
Theorem rate_limit_response (nodeEnv : string) (now : Z)
    (response : AxiosResponse.t) (message : string) (request : bool)
    (width : nat) (seconds : Z) :
  AxiosResponse.status response = 403 ->
  ResponseData.message (AxiosResponse.data response) = Some message ->
  String_includes "rate limit" message = true ->
  AxiosResponse.x_ratelimit_reset response = Some (digits width seconds) ->
  (0 < width)%nat ->
  0 < seconds < 10 ^ Z.of_nat width ->
  seconds * 1000 <= maxTimeValue ->
  errorHandler nodeEnv now
    (handleAPIError (AxiosError.mk (Some response) request)) =
  Responded 429
    (ErrorResponse.mk "RateLimitError"
       "GitHub API rate limit exceeded. Please try again later." 429
       (Some (DetailsReset (Date_toISOString (seconds * 1000))
                (Z.max 0 (seconds - now / 1000))))).
Proof.
  intros Hstatus Hmessage Hincludes Hheader Hw Hs Hmax.
  unfold handleAPIError. cbn [AxiosError.response].
  rewrite Hstatus, Hmessage, Hincludes, Hheader. cbn [Z.eqb Pos.eqb andb].
  cbn [truthy default]. rewrite digits_nonempty by exact Hw.
  cbn [negb]. unfold Datatypes.id.
  rewrite parseInt_digits by (assumption || lia).
  apply errorHandler_reset_run; [lia | unfold maxTimeValue in *; lia].
Qed.

Lemma rate_limit_response_witness :
  AxiosResponse.status (rateLimitResponse (Some "1700000000")) = 403 /\
  String_includes "rate limit" "API rate limit exceeded for 203.0.113.7." =
    true /\
  Some "1700000000" = Some (digits 10 1700000000) /\
  Date_toISOString (1700000000 * 1000) = "2023-11-14T22:13:20.000Z" /\
  Z.max 0 (1700000000 - 1699999970500 / 1000) = 30 /\
  errorHandler "production" 1699999970500
    (handleAPIError
       (AxiosError.mk (Some (rateLimitResponse (Some "1700000000"))) true)) =
  Responded 429
    (ErrorResponse.mk "RateLimitError"
       "GitHub API rate limit exceeded. Please try again later." 429
       (Some (DetailsReset (Date_toISOString (1700000000 * 1000))
                (Z.max 0 (1700000000 - 1699999970500 / 1000))))).
Proof.
  split; [reflexivity |]. split; [vm_compute; reflexivity |].
  split; [vm_compute; reflexivity |]. split; [vm_compute; reflexivity |].
  split; [vm_compute; reflexivity |].
  apply (rate_limit_response "production" 1699999970500
           (rateLimitResponse (Some "1700000000"))
           "API rate limit exceeded for 203.0.113.7." true 10 1700000000).
  - reflexivity.
  - reflexivity.
  - vm_compute. reflexivity.
  - vm_compute. reflexivity.
  - lia.
  - split; reflexivity.
  - unfold maxTimeValue. lia.
Defined.
